(** * Move analysis and commentary pipeline of [main.py]

    A shallow embedding of the request handler [analyze_and_move] and of
    its helpers [game_phase], [move_quality] and [explain_move].

    The handler talks to three collaborators that are not part of the
    program: the python-chess rules library, a UCI engine process and an
    HTTP text-generation backend.  Their data types are modelled after
    python-chess; what they answer is a parameter of every statement. *)

From Stdlib Require Import ZArith List Bool Ascii String Lia Arith.
From Stdlib Require Import DecimalString.
From Stdlib Require QArith_base.
Import ListNotations.

Local Open Scope Z_scope.

(** ** Python strings

    A Python [str] is a sequence of Unicode code points. *)

Definition pystr := list N.

Definition py (s : string) : pystr :=
  map N_of_ascii (list_ascii_of_string s).

Definition pystr_eqb (a b : pystr) : bool :=
  if list_eq_dec N.eq_dec a b then true else false.

(** [str(n)] for an [int]. *)
Definition str_of_int (n : Z) : pystr :=
  py (NilZero.string_of_int (Z.to_int n)).

(** The code points [str.strip()] removes (CPython's [Py_UNICODE_ISSPACE]). *)
Definition isspace (c : N) : bool :=
  (((9 <=? c) && (c <=? 13)) || ((28 <=? c) && (c <=? 32))
   || (c =? 133) || (c =? 160) || (c =? 5760)
   || ((8192 <=? c) && (c <=? 8202))
   || (c =? 8232) || (c =? 8233) || (c =? 8239) || (c =? 8287)
   || (c =? 12288))%N.

Fixpoint lstrip (s : pystr) : pystr :=
  match s with
  | c :: s' => if isspace c then lstrip s' else s
  | [] => []
  end.

Definition rstrip (s : pystr) : pystr := rev (lstrip (rev s)).

Definition strip (s : pystr) : pystr := rstrip (lstrip s).

(** [str.upper()] on the ASCII letters; the program applies it to piece
    symbols only, which are single ASCII letters. *)
Definition upper (s : pystr) : pystr :=
  map (fun c => if ((97 <=? c) && (c <=? 122))%N then (c - 32)%N else c) s.

(** Truth value of a [str], and [a or b] on strings. *)
Definition str_or (a b : pystr) : pystr :=
  match a with [] => b | _ :: _ => a end.

(** [d.get(k, default)] on a [dict] with string keys. *)
Fixpoint dict_get {V : Type} (d : list (pystr * V)) (k : pystr) (default : V) : V :=
  match d with
  | (k', v) :: d' => if pystr_eqb k' k then v else dict_get d' k default
  | [] => default
  end.

(** ** The data types of python-chess the program handles *)

(** [chess.Color] is [bool]: [chess.WHITE = True], [chess.BLACK = False]. *)
Definition Color := bool.
Definition WHITE : Color := true.
Definition BLACK : Color := false.

Inductive PieceType := PAWN | KNIGHT | BISHOP | ROOK | QUEEN | KING.

Definition PieceType_eqb (p q : PieceType) : bool :=
  match p, q with
  | PAWN, PAWN | KNIGHT, KNIGHT | BISHOP, BISHOP
  | ROOK, ROOK | QUEEN, QUEEN | KING, KING => true
  | _, _ => false
  end.

Record Piece := mkPiece { piece_type : PieceType; color : Color }.

(** [chess.PIECE_SYMBOLS]. *)
Definition piece_symbol (p : PieceType) : pystr :=
  match p with
  | PAWN => py "p" | KNIGHT => py "n" | BISHOP => py "b"
  | ROOK => py "r" | QUEEN => py "q" | KING => py "k"
  end.

(** [Piece.symbol()]: upper case for White, lower case for Black. *)
Definition symbol (p : Piece) : pystr :=
  if color p then upper (piece_symbol (piece_type p))
  else piece_symbol (piece_type p).

(** Squares are the integers 0 (a1) to 63 (h8). *)
Definition Square := N.

Definition SQUARES : list Square := map N.of_nat (seq 0 64).

(** [chess.Move]; a move is false in a boolean context exactly when it is
    the null move ([Move.__bool__]). *)
Record Move := mkMove {
  from_square : Square;
  to_square : Square;
  promotion : option PieceType;
  drop : option PieceType
}.

Definition Move_bool (m : Move) : bool :=
  negb (from_square m =? 0)%N || negb (to_square m =? 0)%N
  || match promotion m with Some _ => true | None => false end
  || match drop m with Some _ => true | None => false end.

(** What the program reads of a [chess.Board]: the piece on each square
    and the side to move; the remaining fields are carried along for the
    rules library. *)
Record Board := mkBoard {
  piece_at : Square -> option Piece;
  turn : Color;
  castling_rights : N;
  ep_square : option Square;
  halfmove_clock : N;
  fullmove_number : N
}.

(** [board.pieces(p, c)]: the squares holding a piece of type [p] and
    colour [c], as a [SquareSet]; [len] of it is its cardinality. *)
Definition is_piece (p : PieceType) (c : Color) (o : option Piece) : bool :=
  match o with
  | Some q => PieceType_eqb (piece_type q) p && Bool.eqb (color q) c
  | None => false
  end.

Definition pieces (b : Board) (p : PieceType) (c : Color) : list Square :=
  filter (fun sq => is_piece p c (piece_at b sq)) SQUARES.

(** ** CONFIG *)

Definition STOCKFISH_PATH : pystr := py "stockfish-windows-x86-64.exe".
Definition OLLAMA_ENDPOINT : pystr := py "http://localhost:11434/api/generate".
Definition OLLAMA_MODEL : pystr := py "llama3".

Definition PIECE_NAMES : list (pystr * pystr) :=
  [ (py "P", py "pawn");
    (py "N", py "knight");
    (py "B", py "bishop");
    (py "R", py "rook");
    (py "Q", py "queen");
    (py "K", py "king") ].

(** ** CHESS HELPERS *)

Definition piece_count (board : Board) : nat :=
  fold_right Nat.add 0%nat
    (map (fun p => (List.length (pieces board p WHITE) + List.length (pieces board p BLACK))%nat)
         [QUEEN; ROOK; BISHOP; KNIGHT]).

Definition game_phase (board : Board) : pystr :=
  if (10 <? piece_count board)%nat then py "opening"
  else if (4 <? piece_count board)%nat then py "middlegame"
  else py "endgame".

Definition move_quality (eval_change : Z) : pystr :=
  if eval_change <=? -300 then py "blunder"
  else if eval_change <=? -100 then py "mistake"
  else if eval_change <=? -30 then py "inaccuracy"
  else if eval_change >=? 80 then py "strong"
  else py "neutral".

(** ** Exceptions and fallible calls

    Every exception the collaborators raise derives from Python's
    [Exception]; interpreter-level exits are not modelled. *)

Inductive exn :=
| ValueError | AttributeError | OSError | TimeoutError
| RequestException | JSONDecodeError
| EngineError | EngineTerminatedError.

Inductive outcome (A : Type) :=
| Returns (a : A)
| Raises (e : exn).

Arguments Returns {A} a.
Arguments Raises {A} e.

(** ** Engine data ([chess.engine]) *)

(** [chess.engine.Score]: [Cp(cp)], [Mate(moves)] and [MateGiven]. *)
Inductive Score :=
| Cp (cp : Z)
| Mate (moves : Z)
| MateGiven.

(** [Score.score(mate_score=...)] as python-chess defines it for the three
    classes: a centipawn score is returned as it is, [Mate(moves)] gives
    [mate_score - moves] when [moves > 0] and [-mate_score - moves]
    otherwise, [MateGiven] gives [mate_score]; without a [mate_score] a
    mate has no score. *)
Definition Score_score (s : Score) (mate_score : option Z) : option Z :=
  match s with
  | Cp cp => Some cp
  | Mate moves =>
      match mate_score with
      | None => None
      | Some ms => if 0 <? moves then Some (ms - moves) else Some (- ms - moves)
      end
  | MateGiven => mate_score
  end.

(** [Score.is_mate()]. *)
Definition is_mate (s : Score) : bool :=
  match s with Cp _ => false | _ => true end.

(** [chess.engine.PovScore]; [relative] is the score from the point of
    view of the side to move. *)
Record PovScore := mkPovScore { relative : Score; pov_turn : Color }.

(** The [InfoDict] returned by [engine.analyse]; [info.get("score")]. *)
Record InfoDict := mkInfo { info_score : option PovScore }.

(** [chess.engine.PlayResult]. *)
Record PlayResult := mkPlayResult { play_move : option Move }.

(** [chess.engine.Limit(time=...)], in seconds. *)
Record Limit := mkLimit { limit_time : QArith_base.Q }.

Definition Limit_analyse : Limit := mkLimit (QArith_base.Qmake 1 10).
Definition Limit_play : Limit := mkLimit (QArith_base.Qmake 5 10).

(** [x or 0] on an [Optional[int]]. *)
Definition int_or (x : option Z) (d : Z) : Z :=
  match x with
  | Some v => if v =? 0 then d else v
  | None => d
  end.

(** ** Backend data ([requests]) *)

(** The Python values a JSON document decodes to. *)
#[warnings="-register-all"]
Inductive pyobj :=
| PyNone
| PyBool (b : bool)
| PyInt (z : Z)
| PyFloat (repr : pystr)
| PyStr (s : pystr)
| PyList (l : list pyobj)
| PyDict (d : list (pystr * pyobj)).

(** [o.get(k, default)]: only a [dict] has the method. *)
Definition obj_get (o : pyobj) (k : pystr) (default : pyobj) : outcome pyobj :=
  match o with
  | PyDict d => Returns (dict_get d k default)
  | _ => Raises AttributeError
  end.

(** [o.strip()]: only a [str] has the method. *)
Definition obj_strip (o : pyobj) : outcome pystr :=
  match o with
  | PyStr s => Returns (strip s)
  | _ => Raises AttributeError
  end.

(** The [json=] body of the POST request. *)
Record PostBody := mkPostBody {
  body_model : pystr;
  body_prompt : pystr;
  body_stream : bool
}.

(** A [requests.Response], as far as the program looks at it: [r.json()]. *)
Record HttpResponse := mkHttpResponse { json : outcome pyobj }.

(** ** STATE, MODELS and the effects of a request *)

(** An entry of [move_log]. *)
Record Entry := mkEntry {
  entry_move : pystr;
  entry_piece : pystr;
  entry_phase : pystr;
  entry_quality : pystr;
  entry_explanation : pystr
}.

Record GameState := mkGameState { fen : pystr; user_move : pystr }.

(** What the handler returns. *)
Inductive Payload :=
| ErrorPayload (error : pystr)
| SuccessPayload (new_fen ai_move explanation : pystr) (history : list Entry).

(** The calls a request makes to the outside, in the order made. *)
Inductive Event :=
| EvPopen (path : pystr)
| EvAnalyse (board : Board) (limit : Limit)
| EvPost (url : pystr) (body : PostBody) (timeout : Z)
| EvPlay (board : Board) (limit : Limit)
| EvQuit.

Definition is_popen (e : Event) : bool :=
  match e with EvPopen _ => true | _ => false end.
Definition is_analyse (e : Event) : bool :=
  match e with EvAnalyse _ _ => true | _ => false end.
Definition is_post (e : Event) : bool :=
  match e with EvPost _ _ _ => true | _ => false end.
Definition is_play (e : Event) : bool :=
  match e with EvPlay _ _ => true | _ => false end.
Definition is_quit (e : Event) : bool :=
  match e with EvQuit => true | _ => false end.

(** A computation reads and extends the global [move_log], records the
    outside calls it makes, and returns or raises.  A raise keeps what was
    written to [move_log] before it. *)
Definition M (A : Type) : Type :=
  list Entry -> outcome A * list Entry * list Event.

Definition ret {A} (a : A) : M A := fun log => (Returns a, log, []).

Definition bind {A B} (m : M A) (k : A -> M B) : M B := fun log =>
  match m log with
  | (Returns a, log1, ev1) =>
      let '(r, log2, ev2) := k a log1 in (r, log2, ev1 ++ ev2)
  | (Raises e, log1, ev1) => (Raises e, log1, ev1)
  end.

Notation "x <- m ;; k" := (bind m (fun x => k))
  (at level 61, m at next level, right associativity).

(** A pure library call that may raise. *)
Definition lift {A} (o : outcome A) : M A := fun log => (o, log, []).

(** A call to the outside, recorded. *)
Definition call {A} (ev : Event) (o : outcome A) : M A :=
  fun log => (o, log, [ev]).

(** [try: body / except Exception: handler]. *)
Definition try_except {A} (body : M A) (handler : exn -> M A) : M A := fun log =>
  match body log with
  | (Raises e, log1, ev1) =>
      let '(r, log2, ev2) := handler e log1 in (r, log2, ev1 ++ ev2)
  | done => done
  end.

(** [move_log.append(e)] and reading [move_log]. *)
Definition append_log (e : Entry) : M unit :=
  fun log => (Returns tt, log ++ [e], []).

Definition read_log : M (list Entry) := fun log => (Returns log, log, []).

(** ** The collaborators *)

(** The rules library, as the handler uses it.  [push] passes the turn to
    the other side. *)
Record Rules := mkRules {
  Board_of_fen : pystr -> outcome Board;
  Move_from_uci : pystr -> outcome Move;
  is_legal : Board -> Move -> bool;
  san : Board -> Move -> pystr;
  push : Board -> Move -> Board;
  board_fen : Board -> pystr;
  uci : Move -> pystr;
  push_turn : forall b m, turn (push b m) = negb (turn b)
}.

(** The engine process and the text backend during one request. *)
Record Env := mkEnv {
  popen_uci : pystr -> outcome unit;
  analyse : Board -> Limit -> outcome InfoDict;
  play : Board -> Limit -> outcome PlayResult;
  quit : outcome unit;
  post : pystr -> PostBody -> Z -> outcome HttpResponse
}.

(** ** The program *)

Section Program.

Context (R : Rules) (env : Env).

Definition nl : pystr := [10%N].

(** The prompt of [explain_move]. *)
Definition prompt_of (san_text piece : pystr) (eval_change : Z)
    (phase quality : pystr) : pystr :=
  py "You generate one-line chess commentary." ++ nl ++
  py "This is not a conversation." ++ nl ++
  py "No acknowledgements, no questions, no setup text." ++ nl ++ nl ++
  py "Move: " ++ san_text ++ nl ++
  py "Piece: " ++ piece ++ nl ++
  py "Phase: " ++ phase ++ nl ++
  py "Quality: " ++ quality ++ nl ++
  py "Eval delta: " ++ str_of_int eval_change ++ nl ++ nl ++
  py "Write exactly ONE short sentence describing the resulting position or momentum." ++ nl ++
  py "If the move is a mistake or blunder, describe loss, weakness, or advantage for the opponent." ++ nl ++
  py "If the move is a mistake or blunder, NEVER describe it as an attack, initiative, or sacrifice." ++ nl ++
  py "Tone: confident, calm, professional, lightly witty." ++ nl ++ nl ++
  py "Strict rules:" ++ nl ++
  py "- Never address the player" ++ nl ++
  py "- Never ask questions" ++ nl ++
  py "- Never mention inputs or parameters" ++ nl ++
  py "- Never describe the move itself" ++ nl ++
  py "- Never mention squares, locations, directions, or piece actions" ++ nl ++
  py "- Never mention numbers, evaluations, or centipawns" ++ nl ++
  py "- Never use 'you', 'your', or 'you're'" ++ nl ++
  py "- No quotes, labels, or explanations" ++ nl ++
  py "- Maximum 15 words" ++ nl ++
  py "- Output ONE sentence only" ++ nl.

Definition explain_move (san_text piece : pystr) (eval_change : Z)
    (phase quality : pystr) : M pystr :=
  let prompt := prompt_of san_text piece eval_change phase quality in
  let body := mkPostBody OLLAMA_MODEL prompt false in
  try_except
    (r <- call (EvPost OLLAMA_ENDPOINT body 30)
               (post env OLLAMA_ENDPOINT body 30) ;;
     doc <- lift (json r) ;;
     text <- lift (obj_get doc (py "response") (PyStr [])) ;;
     stripped <- lift (obj_strip text) ;;
     ret (str_or stripped (py "Move noted.")))
    (fun _ => ret (py "No explanation available.")).

(** Lines 139-140: the name of the piece on the move's from-square. *)
Definition piece_name_of (board : Board) (move : Move) : pystr :=
  match piece_at board (from_square move) with
  | Some piece => dict_get PIECE_NAMES (upper (symbol piece)) (py "piece")
  | None => py "piece"
  end.

(** Lines 151-158: the evaluation read from the analysis of [board], the
    position after the user's move. *)
Definition raw_score (info : InfoDict) : Z :=
  match info_score info with
  | Some score_info => int_or (Score_score (relative score_info) (Some 10000)) 0
  | None => 0
  end.

Definition evaluation_of (board : Board) (info : InfoDict) : Z :=
  let evaluation := raw_score info in
  if Bool.eqb (turn board) BLACK then - evaluation else evaluation.

(** Lines 181-185: the engine's reply applied to [board]. *)
Definition apply_reply (board : Board) (result : PlayResult) : Board * pystr :=
  match play_move result with
  | Some m => if Move_bool m then (push R board m, uci R m) else (board, [])
  | None => (board, [])
  end.

Definition analyze_and_move (state : GameState) : M Payload :=
  board <- lift (Board_of_fen R (fen state)) ;;
  move <- lift (Move_from_uci R (user_move state)) ;;
  if negb (is_legal R board move) then
    ret (ErrorPayload (py "Illegal move."))
  else
    let san_text := san R board move in
    let piece_name := piece_name_of board move in
    let board := push R board move in
    _ <- call (EvPopen STOCKFISH_PATH) (popen_uci env STOCKFISH_PATH) ;;
    info <- call (EvAnalyse board Limit_analyse) (analyse env board Limit_analyse) ;;
    let evaluation := evaluation_of board info in
    let phase := game_phase board in
    let quality := move_quality evaluation in
    explanation <- explain_move san_text piece_name evaluation phase quality ;;
    _ <- append_log (mkEntry san_text piece_name phase quality explanation) ;;
    result <- call (EvPlay board Limit_play) (play env board Limit_play) ;;
    let '(board, ai_move) := apply_reply board result in
    _ <- call EvQuit (quit env) ;;
    history <- read_log ;;
    ret (SuccessPayload (board_fen R board) ai_move explanation history).

End Program.

(** ** Requests served one after the other

    [move_log] is created empty when the module is loaded and lives as long
    as the process.  Each request comes with what the engine and the
    backend answer during it.  A request runs here from its first line to
    its last before the next one starts: the handler is a coroutine that
    gives way at its four [await]s, and requests that overlap there are
    outside [serve]. *)

Definition initial_move_log : list Entry := [].

Fixpoint serve (R : Rules) (reqs : list (Env * GameState)) (log : list Entry)
    : list (outcome Payload) * list Entry :=
  match reqs with
  | [] => ([], log)
  | (env, state) :: rest =>
      let '(r, log1, _) := analyze_and_move R env state log in
      let '(rs, log2) := serve R rest log1 in
      (r :: rs, log2)
  end.

(** The result, the ledger and the outside calls of one request. *)
Definition result_of {A} (x : outcome A * list Entry * list Event) : outcome A :=
  fst (fst x).
Definition log_of {A} (x : outcome A * list Entry * list Event) : list Entry :=
  snd (fst x).
Definition events_of {A} (x : outcome A * list Entry * list Event) : list Event :=
  snd x.

(** A request is successful when the handler returns the success payload. *)
Definition is_success (r : outcome Payload) : bool :=
  match r with
  | Returns (SuccessPayload _ _ _ _) => true
  | _ => false
  end.

(** ** A small rules library and canned collaborators

    A concrete [Rules] to run the handler on: boards are decoded from two
    known FEN strings, a move is accepted when it takes a piece of the side
    to move to a square not held by that side. *)

Module Demo.

Definition back_rank : list PieceType :=
  [ROOK; KNIGHT; BISHOP; QUEEN; KING; BISHOP; KNIGHT; ROOK].

Definition initial_piece_at (sq : Square) : option Piece :=
  let file := N.to_nat (sq mod 8) in
  match (sq / 8)%N with
  | 0%N => option_map (fun p => mkPiece p WHITE) (nth_error back_rank file)
  | 1%N => Some (mkPiece PAWN WHITE)
  | 6%N => Some (mkPiece PAWN BLACK)
  | 7%N => option_map (fun p => mkPiece p BLACK) (nth_error back_rank file)
  | _ => None
  end.

Definition initial_board : Board :=
  mkBoard initial_piece_at WHITE 9295429630892703873%N None 0%N 1%N.

Definition push (b : Board) (m : Move) : Board :=
  let moved :=
    match promotion m, piece_at b (from_square m) with
    | Some p, Some q => Some (mkPiece p (color q))
    | _, q => q
    end in
  mkBoard
    (fun sq => if (sq =? to_square m)%N then moved
               else if (sq =? from_square m)%N then None
               else piece_at b sq)
    (negb (turn b)) (castling_rights b) None
    (halfmove_clock b + 1)%N
    (if turn b then fullmove_number b else (fullmove_number b + 1)%N).

Definition e2e4 : Move := mkMove 12%N 28%N None None.
Definition e7e5 : Move := mkMove 52%N 36%N None None.
Definition a1a5 : Move := mkMove 0%N 32%N None None.

Definition START_FEN : pystr :=
  py "rnbqkbnr/pppppppp/8/8/8/8/PPPPPPPP/RNBQKBNR w KQkq - 0 1".
Definition AFTER_E4_FEN : pystr :=
  py "rnbqkbnr/pppppppp/8/8/4P3/8/PPPP1PPP/RNBQKBNR b KQkq - 0 1".

Definition Board_of_fen (s : pystr) : outcome Board :=
  if pystr_eqb s START_FEN then Returns initial_board
  else if pystr_eqb s AFTER_E4_FEN then Returns (push initial_board e2e4)
  else Raises ValueError.

Definition square_of (f r : N) : option Square :=
  if ((97 <=? f) && (f <=? 104) && (49 <=? r) && (r <=? 56))%N
  then Some ((r - 49) * 8 + (f - 97))%N else None.

Definition Move_from_uci (s : pystr) : outcome Move :=
  match s with
  | [f1; r1; f2; r2] =>
      if pystr_eqb s (py "0000") then Returns (mkMove 0%N 0%N None None)
      else match square_of f1 r1, square_of f2 r2 with
           | Some a, Some b => Returns (mkMove a b None None)
           | _, _ => Raises ValueError
           end
  | _ => Raises ValueError
  end.

(** The squares strictly between two squares, walking one step at a time
    along the file, the rank or the diagonal. *)
Definition between (a b : Square) : list Square :=
  let fa := Z.of_N (a mod 8) in
  let ra := Z.of_N (a / 8) in
  let df := Z.of_N (b mod 8) - fa in
  let dr := Z.of_N (b / 8) - ra in
  let steps := Z.to_nat (Z.max (Z.abs df) (Z.abs dr)) in
  map (fun k => Z.to_N ((ra + Z.of_nat k * Z.sgn dr) * 8
                        + (fa + Z.of_nat k * Z.sgn df)))
      (seq 1 (Nat.pred steps)).

Definition is_legal (b : Board) (m : Move) : bool :=
  match piece_at b (from_square m) with
  | Some p =>
      Bool.eqb (color p) (turn b) &&
      match piece_at b (to_square m) with
      | Some q => negb (Bool.eqb (color q) (turn b))
      | None => true
      end &&
      match piece_type p with
      | KNIGHT => true
      | _ => forallb (fun sq => match piece_at b sq with
                                | Some _ => false
                                | None => true
                                end)
                     (between (from_square m) (to_square m))
      end
  | None => false
  end.

Definition square_name (sq : Square) : pystr :=
  [(97 + sq mod 8)%N; (49 + sq / 8)%N].

Definition uci (m : Move) : pystr :=
  if Move_bool m then square_name (from_square m) ++ square_name (to_square m)
  else py "0000".

Definition san (b : Board) (m : Move) : pystr :=
  match piece_at b (from_square m) with
  | Some (mkPiece PAWN _) | None => square_name (to_square m)
  | Some (mkPiece p _) => upper (piece_symbol p) ++ square_name (to_square m)
  end.

Fixpoint fen_row (cells : list (option Piece)) (empty : N) : pystr :=
  let gap := if (empty =? 0)%N then [] else [(48 + empty)%N] in
  match cells with
  | [] => gap
  | None :: rest => fen_row rest (empty + 1)%N
  | Some p :: rest => gap ++ symbol p ++ fen_row rest 0%N
  end.

Definition board_fen (b : Board) : pystr :=
  let row r := fen_row (map (fun f => piece_at b (r * 8 + f)%N)
                            [0; 1; 2; 3; 4; 5; 6; 7]%N) 0%N in
  row 7%N ++ py "/" ++ row 6%N ++ py "/" ++ row 5%N ++ py "/" ++ row 4%N ++ py "/"
  ++ row 3%N ++ py "/" ++ row 2%N ++ py "/" ++ row 1%N ++ py "/" ++ row 0%N
  ++ (if turn b then py " w " else py " b ")
  ++ (if (castling_rights b =? 0)%N then py "-" else py "KQkq")
  ++ py " - " ++ str_of_int (Z.of_N (halfmove_clock b))
  ++ py " " ++ str_of_int (Z.of_N (fullmove_number b)).

Lemma push_flips_turn (b : Board) (m : Move) : turn (push b m) = negb (turn b).
Proof. reflexivity. Qed.

Definition rules : Rules :=
  mkRules Board_of_fen Move_from_uci is_legal san push board_fen uci
          push_flips_turn.

(** An engine that starts, reports [score], replies [reply] and quits, and
    a backend that answers with the JSON document [doc]. *)
Definition env_ok (score : option PovScore) (reply : option Move)
    (doc : pyobj) : Env :=
  mkEnv (fun _ => Returns tt)
        (fun _ _ => Returns (mkInfo score))
        (fun _ _ => Returns (mkPlayResult reply))
        (Returns tt)
        (fun _ _ _ => Returns (mkHttpResponse (Returns doc))).

Definition doc_of (text : string) : pyobj :=
  PyDict [(py "response", PyStr (py text)); (py "done", PyBool true)].

(** The engine dies during the analysis. *)
Definition env_analyse_fails : Env :=
  mkEnv (fun _ => Returns tt)
        (fun _ _ => Raises EngineTerminatedError)
        (fun _ _ => Returns (mkPlayResult None))
        (Returns tt)
        (fun _ _ _ => Returns (mkHttpResponse (Returns (doc_of "Steady.")))).

(** The engine analyses, then dies when asked for its move. *)
Definition env_play_fails : Env :=
  mkEnv (fun _ => Returns tt)
        (fun _ _ => Returns (mkInfo (Some (mkPovScore (Cp 20) BLACK))))
        (fun _ _ => Raises EngineTerminatedError)
        (Returns tt)
        (fun _ _ _ => Returns (mkHttpResponse (Returns (doc_of "Steady.")))).

(** The backend cannot be reached. *)
Definition env_backend_down (score : option PovScore) (reply : option Move) : Env :=
  mkEnv (fun _ => Returns tt)
        (fun _ _ => Returns (mkInfo score))
        (fun _ _ => Returns (mkPlayResult reply))
        (Returns tt)
        (fun _ _ _ => Raises RequestException).

Definition open_e4 : GameState := mkGameState START_FEN (py "e2e4").
Definition reply_e5 : GameState := mkGameState AFTER_E4_FEN (py "e7e5").
Definition rook_jump : GameState := mkGameState START_FEN (py "a1a5").

End Demo.

(** * Properties *)

(** ** Quality classification *)

Lemma move_quality_cases (e : Z) :
  move_quality e =
    if e <=? -300 then py "blunder"
    else if e <=? -100 then py "mistake"
    else if e <=? -30 then py "inaccuracy"
    else if 80 <=? e then py "strong"
    else py "neutral".
Proof.
  unfold move_quality. rewrite Z.geb_leb. reflexivity.
Qed.

Ltac quality_branch :=
  rewrite move_quality_cases;
  repeat match goal with
         | |- context [?a <=? ?b] =>
             destruct (Z.leb_spec a b); try lia
         end;
  try reflexivity.

(** C2. [move_quality] maps every integer to exactly one label, the first
    branch that matches: at most -300 is a blunder, above -300 and at most
    -100 a mistake, above -100 and at most -30 an inaccuracy, at least 80
    strong, anything else neutral; the eight boundary values fall on the
    stated sides. *)
Theorem move_quality_thresholds (e : Z) :
  (e <= -300 -> move_quality e = py "blunder") /\
  (-300 < e <= -100 -> move_quality e = py "mistake") /\
  (-100 < e <= -30 -> move_quality e = py "inaccuracy") /\
  (80 <= e -> move_quality e = py "strong") /\
  (-30 < e < 80 -> move_quality e = py "neutral") /\
  move_quality (-300) = py "blunder" /\
  move_quality (-299) = py "mistake" /\
  move_quality (-100) = py "mistake" /\
  move_quality (-99) = py "inaccuracy" /\
  move_quality (-30) = py "inaccuracy" /\
  move_quality (-29) = py "neutral" /\
  move_quality 79 = py "neutral" /\
  move_quality 80 = py "strong".
Proof.
  repeat split; intros; try reflexivity; quality_branch.
Qed.

Lemma move_quality_thresholds_witness :
  move_quality (-300) = py "blunder" /\
  move_quality (-250) = py "mistake" /\
  move_quality (-31) = py "inaccuracy" /\
  move_quality 500 = py "strong" /\
  move_quality 0 = py "neutral".
Proof.
  split; [ apply (proj1 (move_quality_thresholds (-300))); lia | ].
  split; [ apply (proj1 (proj2 (move_quality_thresholds (-250)))); lia | ].
  split; [ apply (proj1 (proj2 (proj2 (move_quality_thresholds (-31))))); lia | ].
  split; [ apply (proj1 (proj2 (proj2 (proj2 (move_quality_thresholds 500))))); lia | ].
  apply (proj1 (proj2 (proj2 (proj2 (proj2 (move_quality_thresholds 0)))))); lia.
Defined.

(** ** Phase classification *)

(** The material the phase is specified on: the squares that hold a queen,
    a rook, a bishop or a knight of either side. *)
Definition is_officer (o : option Piece) : bool :=
  match o with
  | Some q =>
      match piece_type q with
      | QUEEN | ROOK | BISHOP | KNIGHT => true
      | PAWN | KING => false
      end
  | None => false
  end.

Definition officer_count (b : Board) : nat :=
  List.length (filter (fun sq => is_officer (piece_at b sq)) SQUARES).

(** The same position with [t] to move. *)
Definition with_turn (b : Board) (t : Color) : Board :=
  mkBoard (piece_at b) t (castling_rights b) (ep_square b)
          (halfmove_clock b) (fullmove_number b).

Lemma count_by_kind (b : Board) (l : list Square) :
  fold_right Nat.add 0%nat
    (map (fun p =>
            (List.length (filter (fun sq => is_piece p WHITE (piece_at b sq)) l)
             + List.length (filter (fun sq => is_piece p BLACK (piece_at b sq)) l))%nat)
         [QUEEN; ROOK; BISHOP; KNIGHT])
  = List.length (filter (fun sq => is_officer (piece_at b sq)) l).
Proof.
  induction l as [| sq l IH]; [ reflexivity | ].
  cbn [map fold_right] in IH |- *. cbn [filter].
  destruct (piece_at b sq) as [[[] []] |]; cbn in IH |- *; lia.
Qed.

Lemma piece_count_officers (b : Board) : piece_count b = officer_count b.
Proof. apply count_by_kind. Qed.

Lemma piece_count_with_turn (b : Board) (t : Color) :
  piece_count (with_turn b t) = piece_count b.
Proof.
  unfold piece_count, pieces, with_turn. cbn [piece_at]. reflexivity.
Qed.

(** C6. [game_phase] is a function of the number of queens, rooks,
    bishops and knights of both sides: more than 10 is the opening, 5 to 10
    the middlegame, at most 4 the endgame; two boards with the same count
    have the same phase, and the side to move does not matter. *)
Theorem game_phase_by_material (b : Board) :
  piece_count b = officer_count b /\
  ((10 < officer_count b)%nat -> game_phase b = py "opening") /\
  ((4 < officer_count b <= 10)%nat -> game_phase b = py "middlegame") /\
  ((officer_count b <= 4)%nat -> game_phase b = py "endgame") /\
  (forall b', officer_count b' = officer_count b -> game_phase b' = game_phase b) /\
  (forall t, game_phase (with_turn b t) = game_phase b).
Proof.
  unfold game_phase. split; [ apply piece_count_officers | ].
  split; [ | split; [ | split; [ | split ] ] ]; intros.
  - rewrite piece_count_officers.
    destruct (Nat.ltb_spec 10 (officer_count b)); [ reflexivity | lia ].
  - rewrite piece_count_officers.
    destruct (Nat.ltb_spec 10 (officer_count b)); [ lia | ].
    destruct (Nat.ltb_spec 4 (officer_count b)); [ reflexivity | lia ].
  - rewrite piece_count_officers.
    destruct (Nat.ltb_spec 10 (officer_count b)); [ lia | ].
    destruct (Nat.ltb_spec 4 (officer_count b)); [ lia | reflexivity ].
  - rewrite !piece_count_officers.
    match goal with H : officer_count _ = _ |- _ => rewrite H end.
    reflexivity.
  - rewrite piece_count_with_turn. reflexivity.
Qed.

Lemma game_phase_by_material_witness :
  game_phase Demo.initial_board = py "opening" /\
  game_phase (Demo.push Demo.initial_board Demo.e2e4)
  = game_phase Demo.initial_board.
Proof.
  split.
  - apply (proj1 (proj2 (game_phase_by_material Demo.initial_board))).
    vm_compute. lia.
  - apply (proj1 (proj2 (proj2 (proj2 (proj2
             (game_phase_by_material Demo.initial_board)))))).
    vm_compute. reflexivity.
Defined.

(** ** Commentary *)

(** Whitespace only strips to the empty string. *)
Lemma lstrip_spaces (s : pystr) :
  forallb isspace s = true -> lstrip s = [].
Proof.
  induction s as [| c s IH]; cbn [forallb lstrip]; [ reflexivity | ].
  intros H. apply andb_prop in H as [Hc Hs]. rewrite Hc. auto.
Qed.

Lemma strip_spaces (s : pystr) :
  forallb isspace s = true -> strip s = [].
Proof.
  intros H. unfold strip, rstrip. rewrite (lstrip_spaces s H). reflexivity.
Qed.

(** The single call [explain_move] makes to the backend. *)
Definition post_event (san_text piece : pystr) (eval_change : Z)
    (phase quality : pystr) : Event :=
  EvPost OLLAMA_ENDPOINT
         (mkPostBody OLLAMA_MODEL
            (prompt_of san_text piece eval_change phase quality) false)
         30.

(** C4. [explain_move] always returns a string, makes one backend call and
    leaves the ledger alone.  When the POST raises, when the body is not
    JSON, or when the document is not an object with a string under
    "response", the string is "No explanation available.";  when the text
    under "response" (or the default for a missing key) strips to the
    empty string it is "Move noted.";  otherwise it is the stripped text. *)
Theorem explain_move_fallbacks (env : Env) (san_text piece : pystr)
    (eval_change : Z) (phase quality : pystr) (log : list Entry) :
  let body := mkPostBody OLLAMA_MODEL
                (prompt_of san_text piece eval_change phase quality) false in
  exists text,
    explain_move env san_text piece eval_change phase quality log
    = (Returns text, log,
       [post_event san_text piece eval_change phase quality]) /\
    match post env OLLAMA_ENDPOINT body 30 with
    | Raises _ => text = py "No explanation available."
    | Returns r =>
        match json r with
        | Raises _ => text = py "No explanation available."
        | Returns (PyDict d) =>
            match dict_get d (py "response") (PyStr []) with
            | PyStr s =>
                (strip s = [] -> text = py "Move noted.") /\
                (strip s <> [] -> text = strip s)
            | _ => text = py "No explanation available."
            end
        | Returns _ => text = py "No explanation available."
        end
    end.
Proof.
  intros body.
  unfold explain_move, try_except, bind, call, lift, ret, post_event,
    obj_get, obj_strip.
  fold body.
  destruct (post env OLLAMA_ENDPOINT body 30) as [r | e]; cbv beta iota zeta.
  2: { eexists; split; reflexivity. }
  destruct (json r) as [doc | e]; cbv beta iota zeta.
  2: { eexists; split; reflexivity. }
  destruct doc as [ | b | z | f | s | l | d ]; cbv beta iota zeta;
    try (eexists; split; reflexivity).
  destruct (dict_get d (py "response") (PyStr [])) as [ | b | z | f | s | l | d' ];
    cbv beta iota zeta; try (eexists; split; reflexivity).
  eexists; split; [ reflexivity | ].
  unfold str_or. destruct (strip s) as [| c t]; split; intros H; congruence.
Qed.

Lemma explain_move_fallbacks_witness :
  explain_move (Demo.env_ok None None (Demo.doc_of "   "))
               (py "e4") (py "pawn") 0 (py "opening") (py "neutral") []
  = (Returns (py "Move noted."), [],
     [post_event (py "e4") (py "pawn") 0 (py "opening") (py "neutral")]).
Proof.
  destruct (explain_move_fallbacks (Demo.env_ok None None (Demo.doc_of "   "))
              (py "e4") (py "pawn") 0 (py "opening") (py "neutral") [])
    as [text [Hrun Htext]].
  cbn in Htext. destruct Htext as [Hempty _].
  rewrite Hrun, (Hempty eq_refl). reflexivity.
Defined.

(** ** The request handler, path by path *)

(** The text [explain_move] returns. *)
Definition explanation_of (env : Env) (san_text piece : pystr)
    (eval_change : Z) (phase quality : pystr) : pystr :=
  match result_of (explain_move env san_text piece eval_change phase quality []) with
  | Returns text => text
  | Raises _ => []
  end.

Lemma explain_move_run (env : Env) (san_text piece : pystr)
    (eval_change : Z) (phase quality : pystr) (log : list Entry) :
  explain_move env san_text piece eval_change phase quality log
  = (Returns (explanation_of env san_text piece eval_change phase quality),
     log, [post_event san_text piece eval_change phase quality]).
Proof.
  unfold explanation_of, result_of, explain_move, try_except, bind, call,
    lift, ret, post_event, obj_get, obj_strip.
  destruct (post env _ _ _) as [r | e]; cbv beta iota zeta delta [fst snd];
    [ | reflexivity ].
  destruct (json r) as [doc | e]; cbv beta iota zeta delta [fst snd];
    [ | reflexivity ].
  destruct doc; cbv beta iota zeta delta [fst snd]; try reflexivity.
  destruct (dict_get d (py "response") (PyStr []));
    cbv beta iota zeta delta [fst snd]; reflexivity.
Qed.

(** The entry the handler appends for the legal move [m] on [b] once the
    engine has answered the analysis with [info]. *)
Definition analysed_entry (R : Rules) (env : Env) (b : Board) (m : Move)
    (info : InfoDict) : Entry :=
  let board := push R b m in
  let evaluation := evaluation_of board info in
  let phase := game_phase board in
  let quality := move_quality evaluation in
  mkEntry (san R b m) (piece_name_of b m) phase quality
          (explanation_of env (san R b m) (piece_name_of b m)
                          evaluation phase quality).

Definition analysed_post (R : Rules) (b : Board) (m : Move)
    (info : InfoDict) : Event :=
  let board := push R b m in
  let evaluation := evaluation_of board info in
  post_event (san R b m) (piece_name_of b m) evaluation
             (game_phase board) (move_quality evaluation).

Section Paths.

Context (R : Rules) (env : Env) (state : GameState) (log : list Entry).

Lemma run_bad_fen (e : exn) :
  Board_of_fen R (fen state) = Raises e ->
  analyze_and_move R env state log = (Raises e, log, []).
Proof.
  intros H. unfold analyze_and_move, bind, lift. rewrite H. reflexivity.
Qed.

Lemma run_bad_uci (b : Board) (e : exn) :
  Board_of_fen R (fen state) = Returns b ->
  Move_from_uci R (user_move state) = Raises e ->
  analyze_and_move R env state log = (Raises e, log, []).
Proof.
  intros Hb Hm. unfold analyze_and_move, bind, lift. rewrite Hb, Hm. reflexivity.
Qed.

Lemma run_illegal (b : Board) (m : Move) :
  Board_of_fen R (fen state) = Returns b ->
  Move_from_uci R (user_move state) = Returns m ->
  is_legal R b m = false ->
  analyze_and_move R env state log
  = (Returns (ErrorPayload (py "Illegal move.")), log, []).
Proof.
  intros Hb Hm Hl. unfold analyze_and_move, bind, lift, ret.
  rewrite Hb, Hm, Hl. reflexivity.
Qed.

(** A legal move: what happens is decided by the four engine calls. *)
Lemma run_legal (b : Board) (m : Move) :
  Board_of_fen R (fen state) = Returns b ->
  Move_from_uci R (user_move state) = Returns m ->
  is_legal R b m = true ->
  analyze_and_move R env state log =
    let board := push R b m in
    let started := [EvPopen STOCKFISH_PATH] in
    match popen_uci env STOCKFISH_PATH with
    | Raises e => (Raises e, log, started)
    | Returns _ =>
        let analysed := started ++ [EvAnalyse board Limit_analyse] in
        match analyse env board Limit_analyse with
        | Raises e => (Raises e, log, analysed)
        | Returns info =>
            let entry := analysed_entry R env b m info in
            let asked := analysed ++ [analysed_post R b m info;
                                      EvPlay board Limit_play] in
            match play env board Limit_play with
            | Raises e => (Raises e, log ++ [entry], asked)
            | Returns result =>
                match quit env with
                | Raises e => (Raises e, log ++ [entry], asked ++ [EvQuit])
                | Returns _ =>
                    (Returns (SuccessPayload
                                (board_fen R (fst (apply_reply R board result)))
                                (snd (apply_reply R board result))
                                (entry_explanation entry)
                                (log ++ [entry])),
                     log ++ [entry], asked ++ [EvQuit])
                end
            end
        end
    end.
Proof.
  intros Hb Hm Hl. unfold analyze_and_move, bind, lift, call, ret.
  rewrite Hb, Hm, Hl. cbn [negb].
  destruct (popen_uci env STOCKFISH_PATH) as [[] | e]; cbn [app]; [ | reflexivity ].
  destruct (analyse env (push R b m) Limit_analyse) as [info | e];
    cbn [app]; [ | reflexivity ].
  rewrite explain_move_run. unfold append_log, read_log.
  destruct (play env (push R b m) Limit_play) as [result | e];
    cbn [app]; [ | reflexivity ].
  destruct (apply_reply R (push R b m) result) as [board' ai_move].
  destruct (quit env) as [[] | e]; reflexivity.
Qed.

End Paths.

(** ** Rejected requests *)

(** C1. A move that is not among the legal moves of the position is
    answered with the payload [{"error": "Illegal move."}]; no engine is
    started, the backend is not called and [move_log] is what it was. *)
Theorem illegal_move_rejected (R : Rules) (env : Env) (state : GameState)
    (log : list Entry) (P : Board) (M : Move) :
  Board_of_fen R (fen state) = Returns P ->
  Move_from_uci R (user_move state) = Returns M ->
  is_legal R P M = false ->
  let run := analyze_and_move R env state log in
  result_of run = Returns (ErrorPayload (py "Illegal move.")) /\
  existsb is_popen (events_of run) = false /\
  existsb is_post (events_of run) = false /\
  events_of run = [] /\
  log_of run = log.
Proof.
  intros HP HM Hill run. subst run.
  rewrite (run_illegal R env state log P M HP HM Hill).
  repeat split.
Qed.

Lemma illegal_move_rejected_witness :
  analyze_and_move Demo.rules Demo.env_analyse_fails Demo.rook_jump []
  = (Returns (ErrorPayload (py "Illegal move.")), [], []).
Proof.
  pose proof (illegal_move_rejected Demo.rules Demo.env_analyse_fails
                Demo.rook_jump [] Demo.initial_board Demo.a1a5
                eq_refl eq_refl eq_refl) as H.
  cbv zeta in H. destruct H as [Hres [_ [_ [Hev Hlog]]]].
  destruct (analyze_and_move Demo.rules Demo.env_analyse_fails
              Demo.rook_jump []) as [[r l] ev].
  unfold result_of, events_of, log_of in *. cbn [fst snd] in *.
  subst. reflexivity.
Defined.

(** ** The evaluation read from the analysis *)

Lemma int_or_zero (x : Z) : int_or (Some x) 0 = x.
Proof.
  unfold int_or. destruct (Z.eqb_spec x 0); congruence.
Qed.

(** C7 (as amended). Without a score the evaluation is 0.  The score read
    from the analysis, relative to the side to move, is the centipawn
    score as it is; a mate in [n > 0] moves for the side to move counts
    10000 - n, being mated in [-n] moves ([n <= 0]) counts -10000 - n, a
    delivered mate counts 10000: for fewer than 10000 moves the value is
    not zero, has the sign of the mating side and is [|n|] away from the
    sentinel.  The evaluation handed to the classifier is an integer of
    that magnitude. *)
Theorem evaluation_of_analysis (board : Board) (info : InfoDict) :
  (info_score info = None -> evaluation_of board info = 0) /\
  Z.abs (evaluation_of board info) = Z.abs (raw_score info) /\
  match info_score info with
  | None => raw_score info = 0
  | Some score_info =>
      match relative score_info with
      | Cp cp => raw_score info = cp
      | Mate n =>
          (0 < n -> raw_score info = 10000 - n) /\
          (n <= 0 -> raw_score info = -10000 - n) /\
          (0 < n < 10000 -> 0 < raw_score info < 10000) /\
          (-10000 < n <= 0 -> -10000 <= raw_score info < 0)
      | MateGiven => raw_score info = 10000
      end
  end.
Proof.
  assert (Habs : Z.abs (evaluation_of board info) = Z.abs (raw_score info)).
  { unfold evaluation_of.
    destruct (Bool.eqb (turn board) BLACK); [ apply Z.abs_opp | reflexivity ]. }
  unfold evaluation_of in *. unfold raw_score in *.
  destruct (info_score info) as [[rel t] |]; cbn [relative] in *.
  2: { split; [ intros _; destruct (Bool.eqb (turn board) BLACK); reflexivity | ].
       split; [ exact Habs | reflexivity ]. }
  split; [ discriminate | ]. split; [ exact Habs | ]. clear Habs.
  destruct rel as [cp | n |]; cbn [Score_score].
  - apply int_or_zero.
  - destruct (Z.ltb_spec 0 n); rewrite int_or_zero; repeat split; lia.
  - reflexivity.
Qed.

Lemma evaluation_of_analysis_witness :
  raw_score (mkInfo (Some (mkPovScore (Mate 3) WHITE))) = 9997 /\
  evaluation_of Demo.initial_board (mkInfo None) = 0.
Proof.
  split.
  - apply (proj1 (proj2 (proj2 (evaluation_of_analysis Demo.initial_board
             (mkInfo (Some (mkPovScore (Mate 3) WHITE))))))).
    lia.
  - apply (proj1 (evaluation_of_analysis Demo.initial_board (mkInfo None))).
    reflexivity.
Defined.

(** C7 as stated fails: a mate in three reported to White is evaluated
    9997, which is neither 10000 nor -10000. *)
Lemma mate_in_three_is_not_the_sentinel :
  let info := mkInfo (Some (mkPovScore (Mate 3) WHITE)) in
  is_mate (Mate 3) = true /\
  evaluation_of Demo.initial_board info = 9997 /\
  evaluation_of Demo.initial_board info <> 10000 /\
  evaluation_of Demo.initial_board info <> -10000.
Proof.
  cbv zeta. split; [ reflexivity | ].
  split; [ reflexivity | ]. split; vm_compute; discriminate.
Qed.

(** C3. The evaluation the handler classifies and narrates is the engine's
    relative score negated exactly when Black is to move after the user's
    move, that is when the user plays White.  When the user plays Black
    the opponent is to move and the score is passed on as it is: it stays
    relative to the opponent. *)
Theorem evaluation_kept_for_black_user (R : Rules) (env : Env)
    (state : GameState) (log : list Entry) (b : Board) (m : Move)
    (info : InfoDict) :
  Board_of_fen R (fen state) = Returns b ->
  Move_from_uci R (user_move state) = Returns m ->
  is_legal R b m = true ->
  turn b = BLACK ->
  popen_uci env STOCKFISH_PATH = Returns tt ->
  analyse env (push R b m) Limit_analyse = Returns info ->
  turn (push R b m) = WHITE /\
  evaluation_of (push R b m) info = raw_score info /\
  exists entry,
    In entry (log_of (analyze_and_move R env state log)) /\
    entry_quality entry = move_quality (raw_score info).
Proof.
  intros Hb Hm Hl Hturn Hstart Hinfo.
  assert (Hopp : turn (push R b m) = WHITE)
    by (rewrite push_turn, Hturn; reflexivity).
  assert (Heval : evaluation_of (push R b m) info = raw_score info)
    by (unfold evaluation_of; rewrite Hopp; reflexivity).
  split; [ exact Hopp | ]. split; [ exact Heval | ].
  exists (analysed_entry R env b m info). split.
  - rewrite (run_legal R env state log b m Hb Hm Hl). cbv zeta.
    rewrite Hstart, Hinfo.
    destruct (play env (push R b m) Limit_play);
      [ destruct (quit env) | ];
      unfold log_of; cbn [fst snd]; apply in_or_app; right; left; reflexivity.
  - unfold analysed_entry. cbn [entry_quality]. rewrite Heval. reflexivity.
Qed.

(** Black answers 1.e4 with e5 and the engine scores the position +150 for
    White, who is to move: the move is logged as "strong", where the score
    from Black's side, -150, is a "mistake". *)
Lemma evaluation_kept_for_black_user_witness :
  let env := Demo.env_ok (Some (mkPovScore (Cp 150) WHITE)) None
                         (Demo.doc_of "Steady.") in
  (exists entry,
     In entry (log_of (analyze_and_move Demo.rules env Demo.reply_e5 [])) /\
     entry_quality entry = py "strong") /\
  move_quality (- 150) = py "mistake".
Proof.
  cbv zeta. split; [ | reflexivity ].
  destruct (evaluation_kept_for_black_user Demo.rules
              (Demo.env_ok (Some (mkPovScore (Cp 150) WHITE)) None
                           (Demo.doc_of "Steady."))
              Demo.reply_e5 [] (Demo.push Demo.initial_board Demo.e2e4)
              Demo.e7e5 (mkInfo (Some (mkPovScore (Cp 150) WHITE)))
              eq_refl eq_refl eq_refl eq_refl eq_refl eq_refl)
    as [_ [_ [entry [Hin Hq]]]].
  exists entry. split; [ exact Hin | exact Hq ].
Defined.

(** ** The piece field *)

(** The lowercase English name of a piece type. *)
Definition english_name (p : PieceType) : pystr :=
  match p with
  | PAWN => py "pawn" | KNIGHT => py "knight" | BISHOP => py "bishop"
  | ROOK => py "rook" | QUEEN => py "queen" | KING => py "king"
  end.

Lemma dict_get_absent {V : Type} (d : list (pystr * V)) (k : pystr) (default : V) :
  ~ In k (map fst d) -> dict_get d k default = default.
Proof.
  induction d as [| [k' v] d IH]; cbn [dict_get map fst In]; [ reflexivity | ].
  intros Hno. unfold pystr_eqb.
  destruct (list_eq_dec N.eq_dec k' k) as [Heq | Hne].
  - exfalso. apply Hno. left. exact Heq.
  - apply IH. intros Hin. apply Hno. right. exact Hin.
Qed.

Lemma piece_name_known (p : Piece) :
  dict_get PIECE_NAMES (upper (symbol p)) (py "piece")
  = english_name (piece_type p).
Proof.
  destruct p as [[] []]; reflexivity.
Qed.

(** C9. The piece recorded for a legal request is the lowercase English
    name of the piece on the move's from-square before the move, whatever
    its colour; with no piece there, or for a symbol [PIECE_NAMES] does not
    know, it is "piece".  The entry appended to the ledger, which the
    response returns as the last entry of its history, carries that name,
    and the request succeeds in either case. *)
Theorem piece_field_named (R : Rules) (env : Env) (state : GameState)
    (log : list Entry) (b : Board) (m : Move) (info : InfoDict)
    (result : PlayResult) :
  Board_of_fen R (fen state) = Returns b ->
  Move_from_uci R (user_move state) = Returns m ->
  is_legal R b m = true ->
  popen_uci env STOCKFISH_PATH = Returns tt ->
  analyse env (push R b m) Limit_analyse = Returns info ->
  play env (push R b m) Limit_play = Returns result ->
  quit env = Returns tt ->
  (forall p, piece_at b (from_square m) = Some p ->
             piece_name_of b m = english_name (piece_type p)) /\
  (piece_at b (from_square m) = None -> piece_name_of b m = py "piece") /\
  (forall k, ~ In k (map fst PIECE_NAMES) ->
             dict_get PIECE_NAMES k (py "piece") = py "piece") /\
  exists new_fen ai_move entry,
    analyze_and_move R env state log
    = (Returns (SuccessPayload new_fen ai_move (entry_explanation entry)
                               (log ++ [entry])),
       log ++ [entry],
       events_of (analyze_and_move R env state log)) /\
    entry_piece entry = piece_name_of b m.
Proof.
  intros Hb Hm Hl Hstart Hinfo Hplay Hquit.
  split; [ | split; [ | split ] ].
  - intros p Hp. unfold piece_name_of. rewrite Hp. apply piece_name_known.
  - intros Hnone. unfold piece_name_of. rewrite Hnone. reflexivity.
  - intros k Hk. apply dict_get_absent. exact Hk.
  - rewrite (run_legal R env state log b m Hb Hm Hl). cbv zeta.
    rewrite Hstart, Hinfo, Hplay, Hquit.
    do 3 eexists. split; reflexivity.
Qed.

Lemma piece_field_named_witness :
  piece_name_of Demo.initial_board Demo.e2e4 = py "pawn".
Proof.
  apply (proj1 (piece_field_named Demo.rules
                  (Demo.env_ok None (Some Demo.e7e5) (Demo.doc_of "Steady."))
                  Demo.open_e4 [] Demo.initial_board Demo.e2e4
                  (mkInfo None) (mkPlayResult (Some Demo.e7e5))
                  eq_refl eq_refl eq_refl eq_refl eq_refl eq_refl eq_refl)
               (mkPiece PAWN WHITE)).
  reflexivity.
Defined.

(** ** The engine's reply *)

(** C10. With no reply move (none at all, or the null move, which is
    false as a condition) [ai_move] is the empty string and the returned
    FEN is that of the position after the user's move only; with a reply
    the FEN is that of the position after both moves and [ai_move] is the
    reply in UCI notation. *)
Theorem reply_applied_to_board (R : Rules) (env : Env) (state : GameState)
    (log : list Entry) (b : Board) (m : Move) (info : InfoDict)
    (result : PlayResult) :
  Board_of_fen R (fen state) = Returns b ->
  Move_from_uci R (user_move state) = Returns m ->
  is_legal R b m = true ->
  popen_uci env STOCKFISH_PATH = Returns tt ->
  analyse env (push R b m) Limit_analyse = Returns info ->
  play env (push R b m) Limit_play = Returns result ->
  quit env = Returns tt ->
  exists new_fen ai_move explanation history,
    result_of (analyze_and_move R env state log)
    = Returns (SuccessPayload new_fen ai_move explanation history) /\
    (play_move result = None ->
       ai_move = [] /\ new_fen = board_fen R (push R b m)) /\
    (forall reply, play_move result = Some reply -> Move_bool reply = false ->
       ai_move = [] /\ new_fen = board_fen R (push R b m)) /\
    (forall reply, play_move result = Some reply -> Move_bool reply = true ->
       ai_move = uci R reply /\
       new_fen = board_fen R (push R (push R b m) reply)).
Proof.
  intros Hb Hm Hl Hstart Hinfo Hplay Hquit.
  rewrite (run_legal R env state log b m Hb Hm Hl). cbv zeta.
  rewrite Hstart, Hinfo, Hplay, Hquit. unfold result_of. cbn [fst].
  do 4 eexists. split; [ reflexivity | ].
  unfold apply_reply.
  split; [ | split ].
  - intros Hnone. rewrite Hnone. split; reflexivity.
  - intros reply Hsome Hfalse. rewrite Hsome, Hfalse. split; reflexivity.
  - intros reply Hsome Htrue. rewrite Hsome, Htrue. split; reflexivity.
Qed.

Lemma reply_applied_to_board_witness :
  exists explanation history,
    result_of (analyze_and_move Demo.rules
                 (Demo.env_ok None (Some Demo.e7e5) (Demo.doc_of "Steady."))
                 Demo.open_e4 [])
    = Returns (SuccessPayload
                 (py "rnbqkbnr/pppp1ppp/8/4p3/4P3/8/PPPP1PPP/RNBQKBNR w KQkq - 2 2")
                 (py "e7e5") explanation history).
Proof.
  destruct (reply_applied_to_board Demo.rules
              (Demo.env_ok None (Some Demo.e7e5) (Demo.doc_of "Steady."))
              Demo.open_e4 [] Demo.initial_board Demo.e2e4
              (mkInfo None) (mkPlayResult (Some Demo.e7e5))
              eq_refl eq_refl eq_refl eq_refl eq_refl eq_refl eq_refl)
    as [new_fen [ai_move [explanation [history [Hres [_ [_ Hreply]]]]]]].
  destruct (Hreply Demo.e7e5 eq_refl eq_refl) as [Hai Hfen].
  exists explanation, history. rewrite Hres, Hai, Hfen. reflexivity.
Defined.

(** ** Shutting the engine down *)

(** C5 (as amended). Once the engine is started, [quit] is called, as the
    last outside call of the request, when the analysis and the reply
    request both return; when either raises, the exception leaves the
    handler and [quit] is not called. *)
Theorem quit_after_engine_calls (R : Rules) (env : Env) (state : GameState)
    (log : list Entry) (b : Board) (m : Move) :
  Board_of_fen R (fen state) = Returns b ->
  Move_from_uci R (user_move state) = Returns m ->
  is_legal R b m = true ->
  popen_uci env STOCKFISH_PATH = Returns tt ->
  let run := analyze_and_move R env state log in
  existsb is_popen (events_of run) = true /\
  match analyse env (push R b m) Limit_analyse with
  | Raises e =>
      result_of run = Raises e /\ existsb is_quit (events_of run) = false
  | Returns _ =>
      match play env (push R b m) Limit_play with
      | Raises e =>
          result_of run = Raises e /\ existsb is_quit (events_of run) = false
      | Returns _ =>
          existsb is_quit (events_of run) = true /\
          last (events_of run) (EvPopen STOCKFISH_PATH) = EvQuit
      end
  end.
Proof.
  intros Hb Hm Hl Hstart run. subst run.
  rewrite (run_legal R env state log b m Hb Hm Hl). cbv zeta.
  rewrite Hstart.
  destruct (analyse env (push R b m) Limit_analyse) as [info | e].
  2: { repeat split. }
  destruct (play env (push R b m) Limit_play) as [result | e].
  2: { repeat split. }
  destruct (quit env) as [[] | e]; repeat split.
Qed.

Lemma quit_after_engine_calls_witness :
  existsb is_quit
    (events_of (analyze_and_move Demo.rules
                  (Demo.env_ok None (Some Demo.e7e5) (Demo.doc_of "Steady."))
                  Demo.open_e4 [])) = true.
Proof.
  apply (proj1 (proj2 (quit_after_engine_calls Demo.rules
                  (Demo.env_ok None (Some Demo.e7e5) (Demo.doc_of "Steady."))
                  Demo.open_e4 [] Demo.initial_board Demo.e2e4
                  eq_refl eq_refl eq_refl eq_refl))).
Defined.

(** C5 as stated fails: the engine is started, the analysis raises, and
    the request ends without a call of [quit]. *)
Lemma quit_skipped_when_analysis_fails :
  let run := analyze_and_move Demo.rules Demo.env_analyse_fails
                              Demo.open_e4 [] in
  existsb is_popen (events_of run) = true /\
  result_of run = Raises EngineTerminatedError /\
  existsb is_quit (events_of run) = false.
Proof.
  cbv zeta. repeat split.
Qed.

(** ** The ledger over a run of requests *)

(** What one request adds to the ledger. *)
Definition appended (R : Rules) (req : Env * GameState) : list Entry :=
  log_of (analyze_and_move R (fst req) (snd req) []).

(** Whether one request is answered with the success payload. *)
Definition succeeds (R : Rules) (req : Env * GameState) : bool :=
  is_success (result_of (analyze_and_move R (fst req) (snd req) [])).

(** Whether one request is answered with the illegal-move error. *)
Definition rejected (R : Rules) (req : Env * GameState) : bool :=
  match result_of (analyze_and_move R (fst req) (snd req) []) with
  | Returns (ErrorPayload _) => true
  | _ => false
  end.

(** Whether a call came back without raising. *)
Definition returned {A : Type} (o : outcome A) : bool :=
  match o with Returns _ => true | Raises _ => false end.

(** Whether one request gets as far as [move_log.append]: the position
    and the move are decoded, the move is legal, the engine starts and the
    analysis returns ([explain_move] never raises). *)
Definition reaches_append (R : Rules) (req : Env * GameState) : bool :=
  match Board_of_fen R (fen (snd req)) with
  | Returns b =>
      match Move_from_uci R (user_move (snd req)) with
      | Returns m =>
          is_legal R b m
          && returned (popen_uci (fst req) STOCKFISH_PATH)
          && returned (analyse (fst req) (push R b m) Limit_analyse)
      | Raises _ => false
      end
  | Raises _ => false
  end.

(** Whether one request raises after its append: the reply-move step
    raises, or it returns and the quit step raises. *)
Definition raises_after_append (R : Rules) (req : Env * GameState) : bool :=
  match Board_of_fen R (fen (snd req)) with
  | Returns b =>
      match Move_from_uci R (user_move (snd req)) with
      | Returns m =>
          reaches_append R req
          && negb (returned (play (fst req) (push R b m) Limit_play)
                   && returned (quit (fst req)))
      | Raises _ => false
      end
  | Raises _ => false
  end.

Section Ledger.

Context (R : Rules).

(** The ledger after a request is the ledger before it followed by what
    the request adds, and whether the request succeeds does not depend on
    the ledger. *)
Lemma request_frame (env : Env) (state : GameState) (log : list Entry) :
  log_of (analyze_and_move R env state log) = log ++ appended R (env, state) /\
  is_success (result_of (analyze_and_move R env state log))
  = succeeds R (env, state).
Proof.
  unfold appended, succeeds. cbn [fst snd].
  destruct (Board_of_fen R (fen state)) as [b | e] eqn:Hb.
  2: { rewrite !(run_bad_fen R env state _ e Hb).
       unfold log_of, result_of. cbn. rewrite app_nil_r. split; reflexivity. }
  destruct (Move_from_uci R (user_move state)) as [m | e] eqn:Hm.
  2: { rewrite !(run_bad_uci R env state _ b e Hb Hm).
       unfold log_of, result_of. cbn. rewrite app_nil_r. split; reflexivity. }
  destruct (is_legal R b m) eqn:Hl.
  2: { rewrite !(run_illegal R env state _ b m Hb Hm Hl).
       unfold log_of, result_of. cbn. rewrite app_nil_r. split; reflexivity. }
  rewrite !(run_legal R env state _ b m Hb Hm Hl). cbv zeta.
  destruct (popen_uci env STOCKFISH_PATH) as [[] | e];
    [ | unfold log_of, result_of; cbn; rewrite app_nil_r; split; reflexivity ].
  destruct (analyse env (push R b m) Limit_analyse) as [info | e];
    [ | unfold log_of, result_of; cbn; rewrite app_nil_r; split; reflexivity ].
  destruct (play env (push R b m) Limit_play) as [result | e];
    [ | unfold log_of, result_of; cbn; split; reflexivity ].
  destruct (quit env) as [[] | e];
    unfold log_of, result_of; cbn; split; reflexivity.
Qed.

(** A request adds at most one entry; a successful one adds exactly one; a
    rejected one adds none. *)
Lemma appended_cases (req : Env * GameState) :
  (List.length (appended R req) <= 1)%nat /\
  (succeeds R req = true -> List.length (appended R req) = 1%nat) /\
  (rejected R req = true -> appended R req = []).
Proof.
  destruct req as [env state]. unfold appended, succeeds, rejected.
  cbn [fst snd].
  destruct (Board_of_fen R (fen state)) as [b | e] eqn:Hb.
  2: { rewrite (run_bad_fen R env state _ e Hb).
       unfold log_of, result_of. cbn. repeat split; (lia || discriminate). }
  destruct (Move_from_uci R (user_move state)) as [m | e] eqn:Hm.
  2: { rewrite (run_bad_uci R env state _ b e Hb Hm).
       unfold log_of, result_of. cbn. repeat split; (lia || discriminate). }
  destruct (is_legal R b m) eqn:Hl.
  2: { rewrite (run_illegal R env state _ b m Hb Hm Hl).
       unfold log_of, result_of. cbn. repeat split; (lia || discriminate). }
  rewrite (run_legal R env state _ b m Hb Hm Hl). cbv zeta.
  destruct (popen_uci env STOCKFISH_PATH) as [[] | e];
    [ | unfold log_of, result_of; cbn; repeat split; (lia || discriminate) ].
  destruct (analyse env (push R b m) Limit_analyse) as [info | e];
    [ | unfold log_of, result_of; cbn; repeat split; (lia || discriminate) ].
  destruct (play env (push R b m) Limit_play) as [result | e];
    [ | unfold log_of, result_of; cbn; repeat split; (lia || discriminate) ].
  destruct (quit env) as [[] | e];
    unfold log_of, result_of; cbn; repeat split; (lia || discriminate).
Qed.

Lemma serve_ledger (reqs : list (Env * GameState)) (log : list Entry) :
  snd (serve R reqs log) = log ++ flat_map (appended R) reqs.
Proof.
  revert log. induction reqs as [| [env state] reqs IH]; intros log.
  - cbn. rewrite app_nil_r. reflexivity.
  - cbn [serve flat_map].
    pose proof (request_frame env state log) as [Hlog _].
    destruct (analyze_and_move R env state log) as [[r log1] ev].
    unfold log_of in Hlog. cbn [fst snd] in Hlog. subst log1.
    specialize (IH (log ++ appended R (env, state))).
    destruct (serve R reqs (log ++ appended R (env, state))) as [rs log2].
    cbn [snd] in *. rewrite IH, app_assoc. reflexivity.
Qed.

Lemma serve_results (reqs : list (Env * GameState)) (log : list Entry) :
  map is_success (fst (serve R reqs log)) = map (succeeds R) reqs.
Proof.
  revert log. induction reqs as [| [env state] reqs IH]; intros log.
  - reflexivity.
  - cbn [serve map].
    pose proof (request_frame env state log) as [Hlog Hres].
    destruct (analyze_and_move R env state log) as [[r log1] ev].
    unfold result_of in Hres. cbn [fst] in Hres.
    specialize (IH log1).
    destruct (serve R reqs log1) as [rs log2].
    cbn [fst map] in *. rewrite IH, Hres. reflexivity.
Qed.

(** With no request failing after its append, what the requests add is
    what the successful ones add. *)
Lemma flat_map_successes (reqs : list (Env * GameState)) :
  Forall (fun req => succeeds R req = true \/ appended R req = []) reqs ->
  flat_map (appended R) reqs
  = flat_map (appended R) (filter (succeeds R) reqs) /\
  List.length (flat_map (appended R) reqs)
  = List.length (filter (succeeds R) reqs).
Proof.
  induction 1 as [| req reqs Hreq _ [IHeq IHlen]]; [ split; reflexivity | ].
  cbn [flat_map filter]. rewrite length_app.
  destruct (succeeds R req) eqn:Hs.
  - cbn [flat_map List.length]. rewrite IHeq at 1. split; [ reflexivity | ].
    rewrite (proj1 (proj2 (appended_cases req)) Hs), IHlen. reflexivity.
  - destruct Hreq as [Habs | Hnil]; [ discriminate | ].
    rewrite Hnil. cbn [app List.length]. split; assumption.
Qed.

(** A request adds an entry exactly when it reaches the append; a
    successful request has reached it, and so has one that raises in the
    reply-move or quit step, which is then not successful and is answered
    with that exception. *)
Lemma appended_reach (req : Env * GameState) :
  List.length (appended R req)
  = (if reaches_append R req then 1%nat else 0%nat) /\
  (succeeds R req = true ->
   reaches_append R req = true /\ raises_after_append R req = false) /\
  (raises_after_append R req = true ->
   reaches_append R req = true /\ succeeds R req = false /\
   List.length (appended R req) = 1%nat /\
   exists e, result_of (analyze_and_move R (fst req) (snd req) []) = Raises e).
Proof.
  destruct req as [env state].
  unfold appended, succeeds, raises_after_append, reaches_append.
  cbn [fst snd].
  destruct (Board_of_fen R (fen state)) as [b | e] eqn:Hb.
  2: { rewrite (run_bad_fen R env state _ e Hb).
       unfold log_of, result_of. cbn.
       split; [ reflexivity | split; discriminate ]. }
  destruct (Move_from_uci R (user_move state)) as [m | e] eqn:Hm.
  2: { rewrite (run_bad_uci R env state _ b e Hb Hm).
       unfold log_of, result_of. cbn.
       split; [ reflexivity | split; discriminate ]. }
  destruct (is_legal R b m) eqn:Hl.
  2: { rewrite (run_illegal R env state _ b m Hb Hm Hl).
       unfold log_of, result_of. cbn.
       split; [ reflexivity | split; discriminate ]. }
  rewrite (run_legal R env state _ b m Hb Hm Hl). cbv zeta.
  destruct (popen_uci env STOCKFISH_PATH) as [[] | e];
    [ | unfold log_of, result_of; cbn;
        split; [ reflexivity | split; discriminate ] ].
  destruct (analyse env (push R b m) Limit_analyse) as [info | e];
    [ | unfold log_of, result_of; cbn;
        split; [ reflexivity | split; discriminate ] ].
  destruct (play env (push R b m) Limit_play) as [result | e].
  - destruct (quit env) as [[] | e]; unfold log_of, result_of; cbn.
    + split; [ reflexivity | ]. split; [ | discriminate ].
      intros _. split; reflexivity.
    + split; [ reflexivity | ]. split; [ discriminate | ].
      intros _. split; [ reflexivity | ]. split; [ reflexivity | ].
      split; [ reflexivity | exists e; reflexivity ].
  - unfold log_of, result_of; cbn.
    split; [ reflexivity | ]. split; [ discriminate | ].
    intros _. split; [ reflexivity | ]. split; [ reflexivity | ].
    split; [ reflexivity | exists e; reflexivity ].
Qed.

(** The ledger has one entry for each request that reached the append. *)
Lemma flat_map_reached (reqs : list (Env * GameState)) :
  List.length (flat_map (appended R) reqs)
  = List.length (filter (reaches_append R) reqs).
Proof.
  induction reqs as [| req reqs IH]; [ reflexivity | ].
  cbn [flat_map filter]. rewrite length_app, (proj1 (appended_reach req)).
  destruct (reaches_append R req); cbn [List.length]; rewrite IH; reflexivity.
Qed.

(** A request that does not raise after its append succeeds or adds
    nothing. *)
Lemma no_late_raise (req : Env * GameState) :
  raises_after_append R req = false ->
  succeeds R req = true \/ appended R req = [].
Proof.
  destruct req as [env state].
  unfold appended, succeeds, raises_after_append, reaches_append.
  cbn [fst snd].
  destruct (Board_of_fen R (fen state)) as [b | e] eqn:Hb.
  2: { rewrite (run_bad_fen R env state _ e Hb). intros _. right. reflexivity. }
  destruct (Move_from_uci R (user_move state)) as [m | e] eqn:Hm.
  2: { rewrite (run_bad_uci R env state _ b e Hb Hm). intros _. right.
       reflexivity. }
  destruct (is_legal R b m) eqn:Hl.
  2: { rewrite (run_illegal R env state _ b m Hb Hm Hl). intros _. right.
       reflexivity. }
  rewrite (run_legal R env state _ b m Hb Hm Hl). cbv zeta.
  destruct (popen_uci env STOCKFISH_PATH) as [[] | e];
    [ | intros _; right; reflexivity ].
  destruct (analyse env (push R b m) Limit_analyse) as [info | e];
    [ | intros _; right; reflexivity ].
  destruct (play env (push R b m) Limit_play) as [result | e];
    [ | cbn; discriminate ].
  destruct (quit env) as [[] | e]; [ | cbn; discriminate ].
  intros _. left. reflexivity.
Qed.

End Ledger.

Lemma filter_map_length {A : Type} (f : A -> bool) (l : list A) :
  List.length (filter f l) = List.length (filter (fun x => x) (map f l)).
Proof.
  induction l as [| a l IH]; [ reflexivity | ].
  cbn [filter map]. destruct (f a); cbn [List.length]; rewrite IH; reflexivity.
Qed.

Lemma nth_flat_map_singletons {A B : Type} (f : A -> list B) (l : list A) :
  Forall (fun a => List.length (f a) = 1%nat) l ->
  forall i a, nth_error l i = Some a ->
  exists e, f a = [e] /\ nth_error (flat_map f l) i = Some e.
Proof.
  induction 1 as [| x l Hx _ IH]; intros i a Hnth.
  - destruct i; discriminate.
  - destruct (f x) as [| e [| e' t]] eqn:Hfx; try discriminate.
    destruct i as [| i]; cbn [nth_error] in Hnth.
    + injection Hnth as <-. exists e. split; [ exact Hfx | ].
      cbn [flat_map]. rewrite Hfx. reflexivity.
    + destruct (IH i a Hnth) as [e0 [He0 Hn]]. exists e0.
      split; [ exact He0 | ]. cbn [flat_map]. rewrite Hfx. exact Hn.
Qed.

(** C8 (as amended). The ledger starts empty and only grows at its end:
    serving further requests keeps the entries already there, and every
    request adds at most one entry: exactly one when it reaches the append
    step, which every successful request does and so does a request whose
    reply-move or quit step raises afterwards, and none otherwise, in
    particular none when it is rejected by the illegal-move check.  The
    ledger is, in order, what the requests that reached the append added,
    one entry each; when no request of the history raised after its
    append, it has as many entries as there were successful requests and
    entry [i] is the one the [i]-th successful request added. *)
Theorem ledger_append_only (R : Rules) (reqs : list (Env * GameState)) :
  let results := fst (serve R reqs initial_move_log) in
  let ledger := snd (serve R reqs initial_move_log) in
  initial_move_log = [] /\
  ledger = flat_map (appended R) reqs /\
  (forall more, snd (serve R (reqs ++ more) initial_move_log)
                = ledger ++ flat_map (appended R) more) /\
  (forall req, (List.length (appended R req) <= 1)%nat /\
               (succeeds R req = true -> List.length (appended R req) = 1%nat) /\
               (rejected R req = true -> appended R req = []) /\
               List.length (appended R req)
               = (if reaches_append R req then 1%nat else 0%nat) /\
               (succeeds R req = true -> reaches_append R req = true) /\
               (raises_after_append R req = true ->
                succeeds R req = false /\
                (exists e, result_of (analyze_and_move R (fst req) (snd req) [])
                           = Raises e) /\
                List.length (appended R req) = 1%nat)) /\
  List.length ledger = List.length (filter (reaches_append R) reqs) /\
  (Forall (fun req => succeeds R req = true \/ appended R req = []) reqs ->
   List.length ledger = List.length (filter is_success results) /\
   forall i req, nth_error (filter (succeeds R) reqs) i = Some req ->
     exists entry, appended R req = [entry] /\ nth_error ledger i = Some entry) /\
  (Forall (fun req => raises_after_append R req = false) reqs ->
   List.length ledger = List.length (filter is_success results) /\
   forall i req, nth_error (filter (succeeds R) reqs) i = Some req ->
     exists entry, appended R req = [entry] /\ nth_error ledger i = Some entry).
Proof.
  cbv zeta. unfold initial_move_log.
  assert (Hordered :
            Forall (fun req => succeeds R req = true \/ appended R req = []) reqs ->
            List.length (snd (serve R reqs []))
            = List.length (filter is_success (fst (serve R reqs []))) /\
            forall i req, nth_error (filter (succeeds R) reqs) i = Some req ->
              exists entry, appended R req = [entry] /\
                            nth_error (snd (serve R reqs [])) i = Some entry).
  { intros Hclean. rewrite serve_ledger. cbn [app].
    destruct (flat_map_successes R reqs Hclean) as [Heq Hlen].
    split.
    - rewrite Hlen, (filter_map_length is_success), serve_results.
      apply filter_map_length.
    - intros i req Hnth. rewrite Heq.
      apply (nth_flat_map_singletons (appended R) (filter (succeeds R) reqs)).
      + apply Forall_forall. intros x Hx. apply filter_In in Hx as [_ Hs].
        apply (proj1 (proj2 (appended_cases R x)) Hs).
      + exact Hnth. }
  split; [ reflexivity | ].
  split; [ rewrite serve_ledger; reflexivity | ].
  split.
  { intros more. rewrite !serve_ledger. cbn [app].
    apply flat_map_app. }
  split.
  { intros req.
    destruct (appended_cases R req) as [Hle [Hone Hnone]].
    destruct (appended_reach R req) as [Hlen [Hsucc Hlate]].
    split; [ exact Hle | ]. split; [ exact Hone | ]. split; [ exact Hnone | ].
    split; [ exact Hlen | ].
    split; [ intros Hs; exact (proj1 (Hsucc Hs)) | ].
    intros Hr. destruct (Hlate Hr) as [_ [Hfail [Hentry Hraise]]].
    split; [ exact Hfail | ]. split; [ exact Hraise | exact Hentry ]. }
  split.
  { rewrite serve_ledger. cbn [app]. apply flat_map_reached. }
  split; [ exact Hordered | ].
  intros Hnolate. apply Hordered.
  apply Forall_forall. intros req Hin.
  pose proof (proj1 (Forall_forall _ reqs) Hnolate req Hin) as Hreq.
  cbv beta in Hreq.
  apply (no_late_raise R req). exact Hreq.
Qed.

(** A first move answered with e5, a rejected rook jump, and a reply e5
    to 1.e4 answered with Nf3: two entries. *)
Lemma ledger_append_only_witness :
  let first := Demo.env_ok None (Some Demo.e7e5) (Demo.doc_of "Steady.") in
  let third := Demo.env_ok None (Some (mkMove 6%N 21%N None None))
                           (Demo.doc_of "Steady.") in
  let reqs :=
    [(first, Demo.open_e4); (first, Demo.rook_jump); (third, Demo.reply_e5)] in
  List.length (snd (serve Demo.rules reqs initial_move_log)) = 2%nat.
Proof.
  cbv zeta.
  pose (first := Demo.env_ok None (Some Demo.e7e5) (Demo.doc_of "Steady.")).
  pose (third := Demo.env_ok None (Some (mkMove 6%N 21%N None None))
                             (Demo.doc_of "Steady.")).
  assert (Hclean : Forall
            (fun req => succeeds Demo.rules req = true
                        \/ appended Demo.rules req = [])
            [(first, Demo.open_e4); (first, Demo.rook_jump);
             (third, Demo.reply_e5)]).
  { repeat constructor; (left; reflexivity) || (right; reflexivity). }
  destruct (proj1 (proj2 (proj2 (proj2 (proj2 (proj2
              (ledger_append_only Demo.rules
                 [(first, Demo.open_e4); (first, Demo.rook_jump);
                  (third, Demo.reply_e5)]))))))
              Hclean) as [Hlen _].
  fold first third. rewrite Hlen. reflexivity.
Defined.

(** C8 as stated fails: the engine dies after the analysis, the request
    does not succeed, and the ledger has an entry all the same. *)
Lemma entry_left_by_failed_request :
  let served := serve Demo.rules [(Demo.env_play_fails, Demo.open_e4)]
                      initial_move_log in
  fst served = [Raises EngineTerminatedError] /\
  List.length (filter is_success (fst served)) = 0%nat /\
  List.length (snd served) = 1%nat.
Proof.
  cbv zeta. repeat split.
Qed.

(** * Further properties of the handler *)

(** Splits a goal about one run of the handler into its nine paths. *)
Ltac handler_paths R env state :=
  let b := fresh "b" in
  let m := fresh "m" in
  let e := fresh "e" in
  let Hb := fresh "Hb" in
  let Hm := fresh "Hm" in
  let Hl := fresh "Hl" in
  destruct (Board_of_fen R (fen state)) as [b | e] eqn:Hb;
  [ destruct (Move_from_uci R (user_move state)) as [m | e] eqn:Hm;
    [ destruct (is_legal R b m) eqn:Hl;
      [ rewrite ?(run_legal R env state _ b m Hb Hm Hl); cbv zeta;
        destruct (popen_uci env STOCKFISH_PATH) as [[] | e];
        [ destruct (analyse env (push R b m) Limit_analyse) as [? | e];
          [ destruct (play env (push R b m) Limit_play) as [? | e];
            [ destruct (quit env) as [[] | e] | ]
          | ]
        | ]
      | rewrite ?(run_illegal R env state _ b m Hb Hm Hl) ]
    | rewrite ?(run_bad_uci R env state _ b e Hb Hm) ]
  | rewrite ?(run_bad_fen R env state _ e Hb) ].

Module More.

(** The engine cannot be started. *)
Definition env_no_engine : Env :=
  mkEnv (fun _ => Raises OSError)
        (fun _ _ => Returns (mkInfo None))
        (fun _ _ => Returns (mkPlayResult None))
        (Returns tt)
        (fun _ _ _ => Returns (mkHttpResponse (Returns (Demo.doc_of "Steady.")))).

(** The backend answers with a JSON object that has no "response" key. *)
Definition env_no_response_key : Env :=
  Demo.env_ok None None (PyDict [(py "error", PyStr (py "model not found"))]).

Definition bad_fen : GameState := mkGameState (py "8/8") (py "e2e4").
Definition bad_uci : GameState := mkGameState Demo.START_FEN (py "e2").

End More.

(** X1. A FEN or a UCI string the rules library cannot decode is not
    answered with an error payload: the library's exception leaves the
    handler, before any outside call and with the ledger untouched. *)
Theorem malformed_input_raises (R : Rules) (env : Env) (state : GameState)
    (log : list Entry) (e : exn) :
  (Board_of_fen R (fen state) = Raises e ->
   analyze_and_move R env state log = (Raises e, log, [])) /\
  (forall b, Board_of_fen R (fen state) = Returns b ->
             Move_from_uci R (user_move state) = Raises e ->
             analyze_and_move R env state log = (Raises e, log, [])).
Proof.
  split.
  - apply run_bad_fen.
  - intros b. apply run_bad_uci.
Qed.

Lemma malformed_input_raises_witness :
  analyze_and_move Demo.rules More.env_no_engine More.bad_fen []
  = (Raises ValueError, [], []) /\
  analyze_and_move Demo.rules More.env_no_engine More.bad_uci []
  = (Raises ValueError, [], []).
Proof.
  split.
  - apply (proj1 (malformed_input_raises Demo.rules More.env_no_engine
                    More.bad_fen [] ValueError)).
    reflexivity.
  - apply (proj2 (malformed_input_raises Demo.rules More.env_no_engine
                    More.bad_uci [] ValueError) Demo.initial_board);
      reflexivity.
Defined.

(** X2. When the engine cannot be started, or dies during the analysis,
    the request raises that exception: the backend is never asked for a
    comment, no reply move is requested and the ledger is untouched. *)
Theorem engine_failure_before_append (R : Rules) (env : Env)
    (state : GameState) (log : list Entry) (b : Board) (m : Move) (e : exn) :
  Board_of_fen R (fen state) = Returns b ->
  Move_from_uci R (user_move state) = Returns m ->
  is_legal R b m = true ->
  popen_uci env STOCKFISH_PATH = Raises e \/
  (popen_uci env STOCKFISH_PATH = Returns tt /\
   analyse env (push R b m) Limit_analyse = Raises e) ->
  let run := analyze_and_move R env state log in
  result_of run = Raises e /\
  log_of run = log /\
  existsb is_post (events_of run) = false /\
  existsb is_play (events_of run) = false.
Proof.
  intros Hb Hm Hl Hfail run. subst run.
  rewrite (run_legal R env state log b m Hb Hm Hl). cbv zeta.
  destruct Hfail as [Hstart | [Hstart Hinfo]].
  - rewrite Hstart. repeat split.
  - rewrite Hstart, Hinfo. repeat split.
Qed.

Lemma engine_failure_before_append_witness :
  analyze_and_move Demo.rules More.env_no_engine Demo.open_e4 []
  = (Raises OSError, [], [EvPopen STOCKFISH_PATH]).
Proof.
  pose proof (engine_failure_before_append Demo.rules More.env_no_engine
                Demo.open_e4 [] Demo.initial_board Demo.e2e4 OSError
                eq_refl eq_refl eq_refl (or_introl eq_refl)) as H.
  cbv zeta in H. destruct H as [Hres [Hlog _]].
  destruct (analyze_and_move Demo.rules More.env_no_engine Demo.open_e4 [])
    as [[r l] ev] eqn:Hrun.
  unfold result_of, log_of in *. cbn [fst snd] in *. subst r l.
  f_equal. apply (f_equal snd) in Hrun. cbn [snd] in Hrun.
  rewrite <- Hrun. reflexivity.
Defined.

(** The kinds of outside call, in the order the handler makes them. *)
Inductive CallKind := KPopen | KAnalyse | KPost | KPlay | KQuit.

Definition kind_of (ev : Event) : CallKind :=
  match ev with
  | EvPopen _ => KPopen
  | EvAnalyse _ _ => KAnalyse
  | EvPost _ _ _ => KPost
  | EvPlay _ _ => KPlay
  | EvQuit => KQuit
  end.

Definition protocol : list CallKind := [KPopen; KAnalyse; KPost; KPlay; KQuit].

(** X3. Whatever the collaborators answer, the outside calls of one
    request are an initial part of: start the engine, analyse, ask the
    backend, ask for the reply, quit.  So no call is made twice, nothing is
    asked of the engine before it is started, and the backend is asked
    only after the analysis has returned. *)
Theorem calls_follow_protocol (R : Rules) (env : Env) (state : GameState)
    (log : list Entry) :
  exists n, map kind_of (events_of (analyze_and_move R env state log))
            = firstn n protocol.
Proof.
  handler_paths R env state.
  - exists 5%nat. reflexivity.
  - exists 5%nat. reflexivity.
  - exists 4%nat. reflexivity.
  - exists 2%nat. reflexivity.
  - exists 1%nat. reflexivity.
  - exists 0%nat. reflexivity.
  - exists 0%nat. reflexivity.
  - exists 0%nat. reflexivity.
Qed.

(** The history of a success payload is the ledger the request leaves. *)
Lemma success_history (R : Rules) (env : Env) (state : GameState)
    (log : list Entry) (new_fen ai_move explanation : pystr)
    (history : list Entry) :
  result_of (analyze_and_move R env state log)
  = Returns (SuccessPayload new_fen ai_move explanation history) ->
  history = log_of (analyze_and_move R env state log).
Proof.
  handler_paths R env state; unfold result_of, log_of; cbn [fst snd];
    intros H; try discriminate.
  injection H as _ _ _ <-. reflexivity.
Qed.

(** What a run of requests answers to its [i]-th request, and the ledger
    that request leaves, are those of the handler started on the ledger
    the requests before it have left. *)
Lemma serve_nth (R : Rules) (reqs : list (Env * GameState))
    (log : list Entry) (i : nat) (env : Env) (state : GameState) :
  nth_error reqs i = Some (env, state) ->
  let before := snd (serve R (firstn i reqs) log) in
  nth_error (fst (serve R reqs log)) i
  = Some (result_of (analyze_and_move R env state before)) /\
  snd (serve R (firstn (S i) reqs) log)
  = log_of (analyze_and_move R env state before).
Proof.
  cbv zeta. revert log i.
  induction reqs as [| [env0 state0] reqs IH]; intros log i Hnth.
  - destruct i; discriminate.
  - destruct i as [| i]; cbn [nth_error] in Hnth.
    + injection Hnth as -> ->. cbn [firstn serve snd].
      destruct (analyze_and_move R env state log) as [[r log1] ev].
      destruct (serve R reqs log1) as [rs log2].
      unfold result_of, log_of. cbn [fst snd nth_error].
      split; reflexivity.
    + change (firstn (S (S i)) ((env0, state0) :: reqs))
        with ((env0, state0) :: firstn (S i) reqs).
      change (firstn (S i) ((env0, state0) :: reqs))
        with ((env0, state0) :: firstn i reqs).
      cbn [serve].
      destruct (analyze_and_move R env0 state0 log) as [[r log1] ev].
      specialize (IH log1 i Hnth). destruct IH as [IHres IHlog].
      destruct (serve R reqs log1) as [rs log2].
      destruct (serve R (firstn i reqs) log1) as [rs1 log3].
      destruct (serve R (firstn (S i) reqs) log1) as [rs2 log4].
      cbn [fst snd nth_error] in *.
      split; [ exact IHres | exact IHlog ].
Qed.

(** One run of the handler that returns a success payload. *)
Lemma success_run (R : Rules) (env : Env) (state : GameState)
    (log : list Entry) (new_fen ai_move explanation : pystr)
    (history : list Entry) :
  result_of (analyze_and_move R env state log)
  = Returns (SuccessPayload new_fen ai_move explanation history) ->
  history = log_of (analyze_and_move R env state log) /\
  (exists entry, history = log ++ [entry] /\
                 entry_explanation entry = explanation) /\
  map kind_of (events_of (analyze_and_move R env state log)) = protocol.
Proof.
  handler_paths R env state; unfold result_of, log_of, events_of;
    cbn [fst snd]; intros H; try discriminate.
  injection H as _ _ <- <-.
  split; [ reflexivity | ].
  split; [ eexists; split; reflexivity | reflexivity ].
Qed.

(** X4. When requests are served one after the other, none overlapping
    another, a success payload answered to the [i]-th request has as its
    history the whole ledger as that request leaves it: the ledger the
    requests before it have left, followed by one new entry, whose
    explanation is the explanation of the payload; the request has made
    the five outside calls, from starting the engine to quitting it. *)
Theorem success_payload_shape (R : Rules) (reqs : list (Env * GameState))
    (log : list Entry) (i : nat) (env : Env) (state : GameState)
    (new_fen ai_move explanation : pystr) (history : list Entry) :
  nth_error reqs i = Some (env, state) ->
  nth_error (fst (serve R reqs log)) i
  = Some (Returns (SuccessPayload new_fen ai_move explanation history)) ->
  let before := snd (serve R (firstn i reqs) log) in
  history = snd (serve R (firstn (S i) reqs) log) /\
  (exists entry, history = before ++ [entry] /\
                 entry_explanation entry = explanation) /\
  map kind_of (events_of (analyze_and_move R env state before)) = protocol.
Proof.
  intros Hreq Hres. cbv zeta.
  destruct (serve_nth R reqs log i env state Hreq) as [Hnth Hlog].
  rewrite Hnth in Hres. injection Hres as Hres.
  rewrite Hlog.
  exact (success_run R env state _ new_fen ai_move explanation history Hres).
Qed.

(** 1.e4 and then the rejected rook jump: the first answer carries the
    one entry of the ledger. *)
Lemma success_payload_shape_witness :
  let ok := Demo.env_ok None None (Demo.doc_of "Steady.") in
  let reqs := [(ok, Demo.open_e4); (ok, Demo.rook_jump)] in
  exists entry,
    snd (serve Demo.rules (firstn 1 reqs) []) = [] ++ [entry] /\
    entry_explanation entry = py "Steady.".
Proof.
  cbv zeta.
  destruct (success_payload_shape Demo.rules
              [(Demo.env_ok None None (Demo.doc_of "Steady."), Demo.open_e4);
               (Demo.env_ok None None (Demo.doc_of "Steady."), Demo.rook_jump)]
              [] 0 (Demo.env_ok None None (Demo.doc_of "Steady."))
              Demo.open_e4
              (board_fen Demo.rules (Demo.push Demo.initial_board Demo.e2e4))
              [] (py "Steady.")
              [mkEntry (py "e4") (py "pawn") (py "opening") (py "neutral")
                       (py "Steady.")]
              eq_refl eq_refl)
    as [Hhist [[entry [Hentry Hexpl]] _]].
  exists entry. rewrite <- Hhist. split; [ exact Hentry | exact Hexpl ].
Defined.

(** X5. The only error payload the handler returns is "Illegal move.",
    and it returns it only for a position and a move that were decoded and
    found illegal; the request has then made no outside call and has left
    the ledger as it was. *)
Theorem error_payload_means_illegal (R : Rules) (env : Env)
    (state : GameState) (log : list Entry) (message : pystr) :
  let run := analyze_and_move R env state log in
  result_of run = Returns (ErrorPayload message) ->
  message = py "Illegal move." /\
  log_of run = log /\
  events_of run = [] /\
  exists b m, Board_of_fen R (fen state) = Returns b /\
              Move_from_uci R (user_move state) = Returns m /\
              is_legal R b m = false.
Proof.
  cbv zeta.
  handler_paths R env state; unfold result_of, log_of, events_of;
    cbn [fst snd]; intros H; try discriminate.
  injection H as <-.
  repeat split. do 2 eexists. repeat split; eassumption.
Qed.

Lemma error_payload_means_illegal_witness :
  is_legal Demo.rules Demo.initial_board Demo.a1a5 = false /\
  log_of (analyze_and_move Demo.rules More.env_no_engine Demo.rook_jump [])
  = [].
Proof.
  destruct (error_payload_means_illegal Demo.rules More.env_no_engine
              Demo.rook_jump [] (py "Illegal move.") eq_refl)
    as [_ [Hlog [_ [b [m [Hb [Hm Hl]]]]]]].
  split; [ | exact Hlog ].
  injection Hb as <-. injection Hm as <-. exact Hl.
Defined.

(** X6. A request adds an entry to the ledger exactly when it asks the
    backend for a comment: no comment is paid for without being recorded,
    and no entry is recorded without a comment. *)
Theorem entry_iff_comment (R : Rules) (env : Env) (state : GameState)
    (log : list Entry) :
  let run := analyze_and_move R env state log in
  List.length (log_of run)
  = (List.length log
     + (if existsb is_post (events_of run) then 1 else 0))%nat.
Proof.
  cbv zeta.
  handler_paths R env state; unfold log_of, events_of; cbn [fst snd];
    rewrite ?length_app; cbn [List.length]; try reflexivity;
    try (cbn [existsb is_post orb app]; lia).
Qed.

(** ** The classifiers as scales *)

(** The quality labels from worst to best. *)
Definition quality_rank (q : pystr) : nat :=
  if pystr_eqb q (py "blunder") then 0
  else if pystr_eqb q (py "mistake") then 1
  else if pystr_eqb q (py "inaccuracy") then 2
  else if pystr_eqb q (py "neutral") then 3
  else 4.

Definition QUALITIES : list pystr :=
  [py "blunder"; py "mistake"; py "inaccuracy"; py "neutral"; py "strong"].

Ltac quality_cases :=
  rewrite !move_quality_cases;
  repeat match goal with
         | |- context [?a <=? ?b] =>
             destruct (Z.leb_spec a b); try lia
         end.

(** X7. [move_quality] always answers with one of the five labels, and a
    higher evaluation never gets a worse label: the thresholds cut the
    integers into five consecutive ranges. *)
Theorem move_quality_monotone (e1 e2 : Z) :
  In (move_quality e1) QUALITIES /\
  (e1 <= e2 ->
   (quality_rank (move_quality e1) <= quality_rank (move_quality e2))%nat).
Proof.
  split.
  - quality_cases; unfold QUALITIES; cbn [In]; tauto.
  - intros Hle. quality_cases; vm_compute; lia.
Qed.

Lemma move_quality_monotone_witness :
  (quality_rank (move_quality (-120)) <= quality_rank (move_quality 15))%nat.
Proof.
  apply (proj2 (move_quality_monotone (-120) 15)). lia.
Defined.

(** The phase labels from the least material to the most. *)
Definition phase_rank (p : pystr) : nat :=
  if pystr_eqb p (py "endgame") then 0
  else if pystr_eqb p (py "middlegame") then 1
  else 2.

Lemma game_phase_cases (b : Board) :
  game_phase b =
    if (10 <? officer_count b)%nat then py "opening"
    else if (4 <? officer_count b)%nat then py "middlegame"
    else py "endgame".
Proof.
  unfold game_phase. rewrite piece_count_officers. reflexivity.
Qed.

Lemma filter_length_bound {A : Type} (f : A -> bool) (l : list A) :
  (List.length (filter f l) <= List.length l)%nat.
Proof.
  induction l as [| a l IH]; [ apply le_n | ].
  cbn [filter]. destruct (f a); cbn [List.length]; lia.
Qed.

Lemma filter_none {A : Type} (f : A -> bool) (l : list A) :
  (forall a, In a l -> f a = false) -> filter f l = [].
Proof.
  induction l as [| a l IH]; intros H; [ reflexivity | ].
  cbn [filter]. rewrite (H a (or_introl eq_refl)).
  apply IH. intros x Hx. apply H. right. exact Hx.
Qed.

(** X8. The material [game_phase] counts is at most 64, one piece per
    square; a board with more of it never gets an earlier phase; and a
    board without queens, rooks, bishops and knights, however many pawns
    it has, is in the endgame. *)
Theorem game_phase_scale (b1 b2 : Board) :
  (piece_count b1 <= 64)%nat /\
  ((piece_count b1 <= piece_count b2)%nat ->
   (phase_rank (game_phase b1) <= phase_rank (game_phase b2))%nat) /\
  ((forall sq, In sq SQUARES -> is_officer (piece_at b1 sq) = false) ->
   game_phase b1 = py "endgame").
Proof.
  split; [ | split ].
  - rewrite piece_count_officers. unfold officer_count.
    etransitivity; [ apply filter_length_bound | ].
    unfold SQUARES. rewrite length_map, length_seq. apply le_n.
  - rewrite !piece_count_officers, !game_phase_cases.
    generalize (officer_count b1) (officer_count b2). intros n1 n2 Hle.
    destruct (Nat.ltb_spec 10 n1); destruct (Nat.ltb_spec 10 n2);
      destruct (Nat.ltb_spec 4 n1); destruct (Nat.ltb_spec 4 n2);
      try lia; vm_compute; lia.
  - intros Hnone. rewrite game_phase_cases. unfold officer_count.
    rewrite (filter_none _ SQUARES Hnone). reflexivity.
Qed.

Lemma game_phase_scale_witness :
  (phase_rank (game_phase (Demo.push Demo.initial_board Demo.e2e4))
   <= phase_rank (game_phase Demo.initial_board))%nat.
Proof.
  apply (proj1 (proj2 (game_phase_scale
                         (Demo.push Demo.initial_board Demo.e2e4)
                         Demo.initial_board))).
  vm_compute. lia.
Defined.

(** ** What the commentary looks like *)

Lemma lstrip_head (s : pystr) (c : N) (t : pystr) :
  lstrip s = c :: t -> isspace c = false.
Proof.
  induction s as [| a s IH]; cbn [lstrip]; [ discriminate | ].
  destruct (isspace a) eqn:Ha; [ exact IH | ].
  intros H. injection H as <- _. exact Ha.
Qed.

Lemma lstrip_suffix (s : pystr) : exists pre, s = pre ++ lstrip s.
Proof.
  induction s as [| a s [pre IH]]; [ exists []; reflexivity | ].
  cbn [lstrip]. destruct (isspace a).
  - exists (a :: pre). cbn [app]. rewrite <- IH. reflexivity.
  - exists []. reflexivity.
Qed.

(** [strip] leaves no whitespace at either end. *)
Lemma strip_ends (s : pystr) (c : N) (t : pystr) :
  strip s = c :: t ->
  isspace c = false /\ isspace (last (strip s) c) = false.
Proof.
  unfold strip, rstrip. intros Hs.
  destruct (lstrip (rev (lstrip s))) as [| d w] eqn:Hw; [ discriminate | ].
  split.
  - destruct (lstrip_suffix (rev (lstrip s))) as [pre Hpre].
    rewrite Hw in Hpre. apply (f_equal (@rev N)) in Hpre.
    rewrite rev_involutive, rev_app_distr, Hs in Hpre. cbn [app] in Hpre.
    apply (lstrip_head s c (t ++ rev pre)). exact Hpre.
  - cbn [rev]. rewrite last_last. apply (lstrip_head _ d w Hw).
Qed.

Lemma last_default (l : pystr) (d d' : N) :
  l <> [] -> last l d = last l d'.
Proof.
  induction l as [| a l IH]; [ congruence | ].
  intros _. destruct l as [| b l]; [ reflexivity | ].
  change (last (b :: l) d = last (b :: l) d'). apply IH. discriminate.
Qed.

(** A text that is not empty and has no whitespace at either end. *)
Definition trimmed (t : pystr) : Prop :=
  t <> [] /\ isspace (hd 0%N t) = false /\ isspace (last t 0%N) = false.

Lemma strip_trimmed (s : pystr) : strip s <> [] -> trimmed (strip s).
Proof.
  intros Hne. destruct (strip s) as [| c t] eqn:Hs; [ congruence | ].
  destruct (strip_ends s c t Hs) as [Hc Hlast]. rewrite Hs in Hlast.
  split; [ discriminate | ]. split; [ exact Hc | ].
  rewrite (last_default (c :: t) 0%N c) by discriminate. exact Hlast.
Qed.

Lemma explanation_trimmed (env : Env) (san_text piece : pystr)
    (eval_change : Z) (phase quality : pystr) :
  trimmed (explanation_of env san_text piece eval_change phase quality).
Proof.
  assert (Hdown : trimmed (py "No explanation available."))
    by (repeat split; discriminate).
  assert (Hnoted : trimmed (py "Move noted."))
    by (repeat split; discriminate).
  unfold explanation_of, result_of, explain_move, try_except, bind, call,
    lift, ret, obj_get, obj_strip.
  destruct (post env _ _ _) as [r | e]; cbv beta iota zeta delta [fst snd];
    [ | exact Hdown ].
  destruct (json r) as [doc | e]; cbv beta iota zeta delta [fst snd];
    [ | exact Hdown ].
  destruct doc; cbv beta iota zeta delta [fst snd]; try exact Hdown.
  destruct (dict_get d (py "response") (PyStr []));
    cbv beta iota zeta delta [fst snd]; try exact Hdown.
  unfold str_or. destruct (strip s) as [| c t] eqn:Hs; [ exact Hnoted | ].
  rewrite <- Hs. apply strip_trimmed. rewrite Hs. discriminate.
Qed.

(** X9. The comment [explain_move] returns is never empty and never
    starts or ends with whitespace, whatever the backend does and whatever
    the ledger holds. *)
Theorem commentary_is_trimmed (env : Env) (san_text piece : pystr)
    (eval_change : Z) (phase quality : pystr) (log : list Entry) :
  exists text,
    result_of (explain_move env san_text piece eval_change phase quality log)
    = Returns text /\ trimmed text.
Proof.
  rewrite explain_move_run. unfold result_of. cbn [fst].
  eexists. split; [ reflexivity | apply explanation_trimmed ].
Qed.

(** X10. A JSON object without a "response" key counts as an empty but
    successful reply: the comment is "Move noted.", not the text for an
    unreachable backend. *)
Theorem missing_response_key (env : Env) (san_text piece : pystr)
    (eval_change : Z) (phase quality : pystr) (log : list Entry)
    (r : HttpResponse) (d : list (pystr * pyobj)) :
  post env OLLAMA_ENDPOINT
       (mkPostBody OLLAMA_MODEL
          (prompt_of san_text piece eval_change phase quality) false) 30
  = Returns r ->
  json r = Returns (PyDict d) ->
  ~ In (py "response") (map fst d) ->
  result_of (explain_move env san_text piece eval_change phase quality log)
  = Returns (py "Move noted.").
Proof.
  intros Hpost Hjson Hkey.
  unfold result_of, explain_move, try_except, bind, call, lift, ret,
    obj_get, obj_strip.
  rewrite Hpost. cbv beta iota zeta. rewrite Hjson. cbv beta iota zeta.
  rewrite (dict_get_absent d (py "response") (PyStr []) Hkey).
  reflexivity.
Qed.

Lemma missing_response_key_witness :
  result_of (explain_move More.env_no_response_key
               (py "e4") (py "pawn") 0 (py "opening") (py "neutral") [])
  = Returns (py "Move noted.").
Proof.
  apply (missing_response_key More.env_no_response_key
           (py "e4") (py "pawn") 0 (py "opening") (py "neutral") []
           (mkHttpResponse
              (Returns (PyDict [(py "error", PyStr (py "model not found"))])))
           [(py "error", PyStr (py "model not found"))]
           eq_refl eq_refl).
  cbn [map fst In]. intros [H | []]. discriminate H.
Defined.

(** ** The evaluation of a user playing White *)

(** X11. When the user plays White, Black is to move after the user's
    move and the engine's relative score is negated: the entry's quality
    is the class of the score seen from the user's side. *)
Theorem evaluation_negated_for_white_user (R : Rules) (env : Env)
    (state : GameState) (log : list Entry) (b : Board) (m : Move)
    (info : InfoDict) :
  Board_of_fen R (fen state) = Returns b ->
  Move_from_uci R (user_move state) = Returns m ->
  is_legal R b m = true ->
  turn b = WHITE ->
  popen_uci env STOCKFISH_PATH = Returns tt ->
  analyse env (push R b m) Limit_analyse = Returns info ->
  evaluation_of (push R b m) info = - raw_score info /\
  exists entry,
    log_of (analyze_and_move R env state log) = log ++ [entry] /\
    entry_quality entry = move_quality (- raw_score info).
Proof.
  intros Hb Hm Hl Hturn Hstart Hinfo.
  assert (Heval : evaluation_of (push R b m) info = - raw_score info)
    by (unfold evaluation_of; rewrite push_turn, Hturn; reflexivity).
  split; [ exact Heval | ].
  exists (analysed_entry R env b m info). split.
  - rewrite (run_legal R env state log b m Hb Hm Hl). cbv zeta.
    rewrite Hstart, Hinfo.
    destruct (play env (push R b m) Limit_play);
      [ destruct (quit env) | ]; reflexivity.
  - unfold analysed_entry. cbn [entry_quality]. rewrite Heval. reflexivity.
Qed.

(** White opens 1.e4 and the engine scores the position +150 for Black,
    who is to move: the move is logged as a "mistake". *)
Lemma evaluation_negated_for_white_user_witness :
  exists entry,
    log_of (analyze_and_move Demo.rules
              (Demo.env_ok (Some (mkPovScore (Cp 150) BLACK)) None
                           (Demo.doc_of "Steady."))
              Demo.open_e4 []) = [entry] /\
    entry_quality entry = py "mistake".
Proof.
  destruct (evaluation_negated_for_white_user Demo.rules
              (Demo.env_ok (Some (mkPovScore (Cp 150) BLACK)) None
                           (Demo.doc_of "Steady."))
              Demo.open_e4 [] Demo.initial_board Demo.e2e4
              (mkInfo (Some (mkPovScore (Cp 150) BLACK)))
              eq_refl eq_refl eq_refl eq_refl eq_refl eq_refl)
    as [_ [entry [Hlog Hq]]].
  exists entry. split; [ exact Hlog | exact Hq ].
Defined.

(** X12. A forced mate within 9700 moves is never classified "neutral",
    "inaccuracy" or "mistake"; with Black to move after the user's move
    (the user plays White) a mate for the side to move is a "blunder" and
    a mate against it is "strong". *)
Theorem forced_mate_is_decisive (board : Board) (score_info : PovScore)
    (n : Z) :
  relative score_info = Mate n ->
  -9700 <= n <= 9700 ->
  let quality :=
    move_quality (evaluation_of board (mkInfo (Some score_info))) in
  (quality = py "blunder" \/ quality = py "strong") /\
  (turn board = BLACK ->
   quality = if 0 <? n then py "blunder" else py "strong").
Proof.
  intros Hrel Hn. cbv zeta.
  unfold evaluation_of, raw_score. cbn [info_score]. rewrite Hrel.
  cbn [Score_score].
  destruct (Z.ltb_spec 0 n) as [Hpos | Hneg]; rewrite int_or_zero by lia.
  - destruct (turn board); cbn [Bool.eqb BLACK].
    + split; [ right | discriminate ]. quality_cases; reflexivity.
    + assert (Hq : move_quality (- (10000 - n)) = py "blunder")
        by (quality_cases; reflexivity).
      split; [ left; exact Hq | intros _; exact Hq ].
  - destruct (turn board); cbn [Bool.eqb BLACK].
    + split; [ left | discriminate ]. quality_cases; reflexivity.
    + assert (Hq : move_quality (- (- (10000) - n)) = py "strong")
        by (quality_cases; reflexivity).
      split; [ right; exact Hq | intros _; exact Hq ].
Qed.

Lemma forced_mate_is_decisive_witness :
  move_quality (evaluation_of (Demo.push Demo.initial_board Demo.e2e4)
                  (mkInfo (Some (mkPovScore (Mate 2) BLACK))))
  = py "blunder".
Proof.
  assert (Hn : -9700 <= 2 <= 9700) by lia.
  apply (proj2 (forced_mate_is_decisive
                  (Demo.push Demo.initial_board Demo.e2e4)
                  (mkPovScore (Mate 2) BLACK) 2 eq_refl Hn)).
  reflexivity.
Defined.

(** ** Whose move it is in the returned position *)

Lemma apply_reply_turn (R : Rules) (board : Board) (result : PlayResult) :
  turn (fst (apply_reply R board result))
  = match play_move result with
    | Some reply => if Move_bool reply then negb (turn board) else turn board
    | None => turn board
    end.
Proof.
  unfold apply_reply. destruct (play_move result) as [reply |].
  - destruct (Move_bool reply); cbn [fst]; [ apply push_turn | reflexivity ].
  - reflexivity.
Qed.

(** X13. The position a successful request returns has the user to move
    again exactly when the engine has replied; without a reply it is the
    position after the user's move, with the opponent to move. *)
Theorem user_to_move_after_reply (R : Rules) (env : Env) (state : GameState)
    (log : list Entry) (b : Board) (m : Move) (info : InfoDict)
    (result : PlayResult) :
  Board_of_fen R (fen state) = Returns b ->
  Move_from_uci R (user_move state) = Returns m ->
  is_legal R b m = true ->
  popen_uci env STOCKFISH_PATH = Returns tt ->
  analyse env (push R b m) Limit_analyse = Returns info ->
  play env (push R b m) Limit_play = Returns result ->
  quit env = Returns tt ->
  exists final ai_move explanation history,
    result_of (analyze_and_move R env state log)
    = Returns (SuccessPayload (board_fen R final) ai_move explanation history) /\
    turn final
    = match play_move result with
      | Some reply => if Move_bool reply then turn b else negb (turn b)
      | None => negb (turn b)
      end.
Proof.
  intros Hb Hm Hl Hstart Hinfo Hplay Hquit.
  rewrite (run_legal R env state log b m Hb Hm Hl). cbv zeta.
  rewrite Hstart, Hinfo, Hplay, Hquit. unfold result_of. cbn [fst].
  do 4 eexists. split; [ reflexivity | ].
  rewrite apply_reply_turn, push_turn.
  destruct (play_move result) as [reply |]; [ | reflexivity ].
  destruct (Move_bool reply); [ apply negb_involutive | reflexivity ].
Qed.

Lemma user_to_move_after_reply_witness :
  exists final ai_move explanation history,
    result_of (analyze_and_move Demo.rules
                 (Demo.env_ok None (Some Demo.e7e5) (Demo.doc_of "Steady."))
                 Demo.open_e4 [])
    = Returns (SuccessPayload (board_fen Demo.rules final) ai_move
                 explanation history) /\
    turn final = WHITE.
Proof.
  apply (user_to_move_after_reply Demo.rules
           (Demo.env_ok None (Some Demo.e7e5) (Demo.doc_of "Steady."))
           Demo.open_e4 [] Demo.initial_board Demo.e2e4
           (mkInfo None) (mkPlayResult (Some Demo.e7e5))
           eq_refl eq_refl eq_refl eq_refl eq_refl eq_refl eq_refl).
Defined.

(** ** Histories handed out over a run of requests *)

(** X14. Every history a request of the run has answered with is a
    snapshot of the ledger: it extends the ledger the run started from and
    the ledger at the end of the run extends it. *)
Theorem histories_are_snapshots (R : Rules) (reqs : list (Env * GameState))
    (log : list Entry) (new_fen ai_move explanation : pystr)
    (history : list Entry) :
  In (Returns (SuccessPayload new_fen ai_move explanation history))
     (fst (serve R reqs log)) ->
  (exists before, history = log ++ before) /\
  (exists after, snd (serve R reqs log) = history ++ after).
Proof.
  revert log. induction reqs as [| [env state] reqs IH]; intros log Hin.
  - destruct Hin.
  - pose proof (serve_ledger R ((env, state) :: reqs) log) as Hall.
    cbn [serve flat_map] in Hin, Hall |- *.
    pose proof (request_frame R env state log) as [Hlog _].
    pose proof (success_history R env state log new_fen ai_move explanation
                  history) as Hhist.
    destruct (analyze_and_move R env state log) as [[r log1] ev].
    unfold log_of, result_of in Hlog, Hhist. cbn [fst snd] in Hlog, Hhist.
    specialize (IH log1).
    pose proof (serve_ledger R reqs log1) as Hrest.
    destruct (serve R reqs log1) as [rs log2].
    cbn [fst snd] in *.
    destruct Hin as [Hr | Hin].
    + specialize (Hhist Hr). subst history. split.
      * eexists. exact Hlog.
      * eexists. exact Hrest.
    + destruct (IH Hin) as [[before Hbefore] Hafter]. split.
      * exists (appended R (env, state) ++ before).
        rewrite Hbefore, Hlog, app_assoc. reflexivity.
      * exact Hafter.
Qed.

Lemma histories_are_snapshots_witness :
  let ok := Demo.env_ok None None (Demo.doc_of "Steady.") in
  let first :=
    mkEntry (py "e4") (py "pawn") (py "opening") (py "neutral") (py "Steady.") in
  exists after,
    snd (serve Demo.rules [(ok, Demo.open_e4); (ok, Demo.reply_e5)] [])
    = [first] ++ after.
Proof.
  cbv zeta.
  apply (proj2 (histories_are_snapshots Demo.rules
                  [(Demo.env_ok None None (Demo.doc_of "Steady."), Demo.open_e4);
                   (Demo.env_ok None None (Demo.doc_of "Steady."), Demo.reply_e5)]
                  []
                  (board_fen Demo.rules (Demo.push Demo.initial_board Demo.e2e4))
                  [] (py "Steady.")
                  [mkEntry (py "e4") (py "pawn") (py "opening") (py "neutral")
                           (py "Steady.")]
                  (or_introl eq_refl))).
Defined.

(** ** What the ledger holds *)

Definition PHASES : list pystr :=
  [py "opening"; py "middlegame"; py "endgame"].

(** An entry as the handler writes it. *)
Definition well_formed (entry : Entry) : Prop :=
  In (entry_piece entry) (py "piece" :: map snd PIECE_NAMES) /\
  In (entry_phase entry) PHASES /\
  In (entry_quality entry) QUALITIES /\
  trimmed (entry_explanation entry).

Lemma piece_name_listed (b : Board) (m : Move) :
  In (piece_name_of b m) (py "piece" :: map snd PIECE_NAMES).
Proof.
  unfold piece_name_of. destruct (piece_at b (from_square m)) as [p |].
  - rewrite piece_name_known. unfold PIECE_NAMES. cbn [map snd In].
    destruct (piece_type p); cbn [english_name]; tauto.
  - left. reflexivity.
Qed.

Lemma game_phase_listed (b : Board) : In (game_phase b) PHASES.
Proof.
  rewrite game_phase_cases. unfold PHASES. cbn [In].
  destruct (10 <? officer_count b)%nat; [ tauto | ].
  destruct (4 <? officer_count b)%nat; tauto.
Qed.

Lemma move_quality_listed (e : Z) : In (move_quality e) QUALITIES.
Proof.
  quality_cases; unfold QUALITIES; cbn [In]; tauto.
Qed.

Lemma analysed_entry_well_formed (R : Rules) (env : Env) (b : Board)
    (m : Move) (info : InfoDict) :
  well_formed (analysed_entry R env b m info).
Proof.
  unfold well_formed, analysed_entry.
  cbn [entry_piece entry_phase entry_quality entry_explanation].
  split; [ apply piece_name_listed | ].
  split; [ apply game_phase_listed | ].
  split; [ apply move_quality_listed | apply explanation_trimmed ].
Qed.

Lemma appended_well_formed (R : Rules) (req : Env * GameState) :
  Forall well_formed (appended R req).
Proof.
  destruct req as [env state]. unfold appended. cbn [fst snd].
  handler_paths R env state; unfold log_of; cbn [fst snd app];
    try apply Forall_nil;
    apply Forall_cons; try apply Forall_nil;
    apply analysed_entry_well_formed.
Qed.

(** X15. Whatever requests the process has served since it started, every
    entry of the ledger names one of the six pieces or "piece", one of the
    three phases and one of the five qualities, and carries a comment that
    is not empty and has no whitespace at its ends. *)
Theorem ledger_entries_well_formed (R : Rules)
    (reqs : list (Env * GameState)) :
  Forall well_formed (snd (serve R reqs initial_move_log)).
Proof.
  rewrite serve_ledger. unfold initial_move_log. cbn [app].
  induction reqs as [| req reqs IH]; [ apply Forall_nil | ].
  cbn [flat_map]. apply Forall_app. split.
  - apply appended_well_formed.
  - exact IH.
Qed.
